(** * A shallow embedding of revenium-middleware-runway-go

    The Go package [revenium] wraps the Runway task API: it creates a
    generation task, polls it until completion ([WaitForTaskCompletion]),
    builds a [VideoGenerationResult] and hands a metering payload
    ([buildMeteringPayload]) to a fire-and-forget dispatch unit
    ([sendWithRetry]).

    Modelling conventions.
    - Go [map[string]interface{}] is a [gmap string value]; [interface{}]
      values are the inductive [value].
    - [float64] is [spec_float] at binary64 precision (53, 1024), with
      round-to-nearest-even conversions as in Go.
    - Durations and instants are [Z] nanoseconds.
    - The outside world (clock, cancellation, HTTP replies) is an explicit
      environment record; the loops return their result together with a
      trace of the observable actions (status lookups, sleeps, attempts). *)

From Stdlib Require Import ZArith Lia.
From Stdlib Require Import Floats.SpecFloat.
From stdpp Require Import base gmap strings list fin_maps pretty.

Local Open Scope Z_scope.
Local Set Warnings "-register-all".

(* ------------------------------------------------------------------ *)
(** ** float64 *)

Definition float64 := spec_float.

(** [float64(z)] for a Go integer: round to nearest even. *)
Definition float64_of_int (z : Z) : float64 := binary_normalize 53 1024 z 0 false.

Definition float64_mul (x y : float64) : float64 := SFmul 53 1024 x y.

(** The literal [1.5]. *)
Definition float64_1_5 : float64 := binary_normalize 53 1024 3 (-1) false.

(** The literal [5.0]. *)
Definition float64_5 : float64 := float64_of_int 5.

(** Conversion of a float64 to int64, truncating toward zero; values out of
    the int64 range (and NaN) give the amd64 "integer indefinite"
    [0x8000000000000000]. *)
Definition int64_min : Z := - 2 ^ 63.

Definition int64_of_float64 (f : float64) : Z :=
  let in_range a := if (int64_min <=? a) && (a <? 2 ^ 63) then a else int64_min in
  match f with
  | S754_zero _ => 0
  | S754_finite s m e =>
      let a := if 0 <=? e then Z.pos m * 2 ^ e else Z.pos m / 2 ^ (- e) in
      in_range (if s then - a else a)
  | _ => int64_min
  end.

(* ------------------------------------------------------------------ *)
(** ** types.go / errors.go *)

(** [interface{}] values stored in the Go maps. *)
Inductive value :=
| VNil
| VBool (b : bool)
| VInt (z : Z)            (* Go int *)
| VInt64 (z : Z)          (* Go int64 *)
| VFloat (f : float64)    (* Go float64 *)
| VString (s : string)
| VMap (kvs : list (string * value)).  (* a nested map[string]interface{} *)

Inductive ErrorType :=
| ErrorTypeConfig | ErrorTypeMetering | ErrorTypeProvider | ErrorTypeAuth
| ErrorTypeNetwork | ErrorTypeTask | ErrorTypeValidation | ErrorTypeInternal.

(** Go [error] values: a [*ReveniumError] (type, message, wrapped cause),
    the context error returned by [ctx.Err()], a plain error with no
    [Unwrap], or an error that wraps another one (as [fmt.Errorf] with
    [%w] makes). *)
Inductive error :=
| ReveniumError (Type_ : ErrorType) (Message : string) (Err : option error)
| ContextCanceled
| PlainError (msg : string)
| WrappedError (msg : string) (inner : error).

(** [errors.As(err, &revErr)]: the first [*ReveniumError] met while
    following the [Unwrap] chain from [err] itself. *)
Fixpoint as_revenium_error (e : error) : option (ErrorType * string * option error) :=
  match e with
  | ReveniumError t m c => Some (t, m, c)
  | WrappedError _ inner => as_revenium_error inner
  | ContextCanceled | PlainError _ => None
  end.

Definition NewConfigError m e := ReveniumError ErrorTypeConfig m e.
Definition NewMeteringError m e := ReveniumError ErrorTypeMetering m e.
Definition NewProviderError m e := ReveniumError ErrorTypeProvider m e.
Definition NewNetworkError m e := ReveniumError ErrorTypeNetwork m e.
Definition NewTaskError m e := ReveniumError ErrorTypeTask m e.
Definition NewValidationError m e := ReveniumError ErrorTypeValidation m e.

(** [errors.As(err, &revErr) && revErr.Type == t]. *)
Definition has_error_type (t : ErrorType) (e : error) : bool :=
  match as_revenium_error e with
  | Some (t', _, _) =>
      match t, t' with
      | ErrorTypeConfig, ErrorTypeConfig | ErrorTypeMetering, ErrorTypeMetering
      | ErrorTypeProvider, ErrorTypeProvider | ErrorTypeAuth, ErrorTypeAuth
      | ErrorTypeNetwork, ErrorTypeNetwork | ErrorTypeTask, ErrorTypeTask
      | ErrorTypeValidation, ErrorTypeValidation
      | ErrorTypeInternal, ErrorTypeInternal => true
      | _, _ => false
      end
  | _ => false
  end.

Definition IsValidationError := has_error_type ErrorTypeValidation.
Definition IsTaskError := has_error_type ErrorTypeTask.
Definition IsMeteringError := has_error_type ErrorTypeMetering.

(** [type TaskStatus string] *)
Definition TaskStatus := string.
Definition TaskStatusPending : TaskStatus := "PENDING".
Definition TaskStatusRunning : TaskStatus := "RUNNING".
Definition TaskStatusSucceeded : TaskStatus := "SUCCEEDED".
Definition TaskStatusFailed : TaskStatus := "FAILED".
Definition TaskStatusCanceled : TaskStatus := "CANCELED".

Record TaskResponse := {
  tr_ID : string;
  tr_Status : TaskStatus;
  tr_Error : option string
}.

(** The fields of [TaskStatusResponse] read by the package (the
    timestamps, progress and metadata are decoded but never read). *)
Record TaskStatusResponse := {
  ts_ID : string;
  ts_Status : TaskStatus;
  ts_Output : list string;
  ts_Error : option string;
  ts_FailureCode : option string;
  ts_FailureMessage : option string
}.

Record PollingConfig := {
  MaxAttempts : Z;
  InitialInterval : Z;
  MaxInterval : Z;
  Timeout : Z
}.

Definition second : Z := 1000000000.
Definition minute : Z := 60 * second.

Definition DefaultPollingConfig : PollingConfig := {|
  MaxAttempts := 120;
  InitialInterval := 2 * second;
  MaxInterval := 10 * second;
  Timeout := 20 * minute
|}.

(* ------------------------------------------------------------------ *)
(** ** The completion poller (runway client, WaitForTaskCompletion) *)

(** Outcome of one [GetTaskStatus] call. *)
Inductive LookupResult :=
| LookupOk (st : TaskStatusResponse)
| LookupErr (e : error).

(** The world seen by the poll loop: [time.Since(startTime)] at the
    first timeout check (the time taken by the statements before the
    loop), when the context is done (elapsed time since [startTime], if
    ever), the reply and the wall-clock duration of the k-th status
    lookup. *)
Record PollEnv := {
  env_start : Z;
  env_cancel_at : option Z;
  env_lookup : nat -> LookupResult;
  env_latency : nat -> Z
}.

Inductive PollEvent :=
| PLookup (r : LookupResult)
| PSleep (d : Z).

(** The pair [( *TaskStatusResponse, error)] returned by the poller. *)
Definition PollOutcome := (option TaskStatusResponse * option error)%type.

Definition ctx_done (env : PollEnv) (elapsed : Z) : bool :=
  match env_cancel_at env with
  | Some c => c <=? elapsed
  | None => false
  end.

(** [time.Sleep(d)] returns at once for [d <= 0]. *)
Definition slept (d : Z) : Z := Z.max 0 d.

(** [time.Duration(float64(interval) * 1.5)] *)
Definition grow_interval (interval : Z) : Z :=
  int64_of_float64 (float64_mul (float64_of_int interval) float64_1_5).

(** Lines 124-127: grow, then cap at [MaxInterval]. *)
Definition next_interval (cfg : PollingConfig) (interval : Z) : Z :=
  let interval := grow_interval interval in
  if interval >? MaxInterval cfg then MaxInterval cfg else interval.

(** The messages formatted with [%v] of a duration keep only their
    constant prefix. *)
Definition timeout_error (cfg : PollingConfig) : error :=
  NewTaskError "task polling timeout after" None.

Definition max_attempts_error (cfg : PollingConfig) : error :=
  NewTaskError ("max polling attempts (" +:+ pretty (MaxAttempts cfg) +:+ ") exceeded") None.

Definition failed_error (st : TaskStatusResponse) : error :=
  let errorMsg := match ts_Error st with Some m => m | None => "unknown error" end in
  NewTaskError ("task failed: " +:+ errorMsg) None.

(** The [for] loop of [WaitForTaskCompletion]; [k] counts the lookups
    made so far. [fuel] bounds the iterations: [attempts] grows by one per
    iteration and the loop leaves once it exceeds [MaxAttempts], so
    [MaxAttempts + 1] iterations always suffice. *)
Fixpoint poll_loop (cfg : PollingConfig) (env : PollEnv) (fuel : nat)
    (attempts interval elapsed : Z) (k : nat) : PollOutcome * list PollEvent :=
  match fuel with
  | O => ((None, Some (max_attempts_error cfg)), [])
  | S fuel =>
      let attempts := attempts + 1 in
      if elapsed >? Timeout cfg then ((None, Some (timeout_error cfg)), [])
      else if attempts >? MaxAttempts cfg then ((None, Some (max_attempts_error cfg)), [])
      else if ctx_done env elapsed then ((None, Some ContextCanceled), [])
      else
        let r := env_lookup env k in
        let elapsed := elapsed + env_latency env k in
        match r with
        | LookupErr _ =>
            (* Continue polling on transient errors *)
            let '(o, tr) := poll_loop cfg env fuel attempts interval
                              (elapsed + slept interval) (S k) in
            (o, PLookup r :: PSleep interval :: tr)
        | LookupOk status =>
            if String.eqb (ts_Status status) TaskStatusSucceeded then
              ((Some status, None), [PLookup r])
            else if String.eqb (ts_Status status) TaskStatusFailed then
              ((Some status, Some (failed_error status)), [PLookup r])
            else if String.eqb (ts_Status status) TaskStatusCanceled then
              ((Some status, Some (NewTaskError "task was canceled" None)), [PLookup r])
            else
              let '(o, tr) := poll_loop cfg env fuel attempts
                                (next_interval cfg interval)
                                (elapsed + slept interval) (S k) in
              (o, PLookup r :: PSleep interval :: tr)
        end
  end.

Definition WaitForTaskCompletion (pollingConfig : option PollingConfig) (env : PollEnv)
    : PollOutcome * list PollEvent :=
  let cfg := match pollingConfig with Some c => c | None => DefaultPollingConfig end in
  poll_loop cfg env (S (Z.to_nat (MaxAttempts cfg))) 0 (InitialInterval cfg) (env_start env) 0.

Fixpoint lookups (tr : list PollEvent) : nat :=
  match tr with
  | [] => O
  | PLookup _ :: tr => S (lookups tr)
  | _ :: tr => lookups tr
  end.

(** The sleeps of a poll trace, as the loop produces them: every sleep
    follows a lookup and lasts the current interval; the interval grows
    (×1.5, capped) after a successful non-terminal lookup and stays the
    same after a failed lookup. *)
Fixpoint backoff_as_coded (cfg : PollingConfig) (interval : Z) (tr : list PollEvent) : Prop :=
  match tr with
  | [] => True
  | [PLookup _] => True
  | PLookup r :: PSleep d :: tr =>
      d = interval /\
      backoff_as_coded cfg
        (match r with LookupErr _ => interval | LookupOk _ => next_interval cfg interval end) tr
  | _ => False
  end.

(** The same sleeps as the specification words them: after every lookup
    the loop sleeps the current interval and then grows it. *)
Fixpoint backoff_as_specified (cfg : PollingConfig) (interval : Z) (tr : list PollEvent) : Prop :=
  match tr with
  | [] => True
  | [PLookup _] => True
  | PLookup _ :: PSleep d :: tr =>
      d = interval /\ backoff_as_specified cfg (next_interval cfg interval) tr
  | _ => False
  end.

(** A status reply that keeps the loop going. *)
Definition running_reply (id : string) : TaskStatusResponse := {|
  ts_ID := id; ts_Status := TaskStatusRunning; ts_Output := [];
  ts_Error := None; ts_FailureCode := None; ts_FailureMessage := None
|}.

Definition status_reply (id : string) (s : TaskStatus) (err : option string) : TaskStatusResponse := {|
  ts_ID := id; ts_Status := s; ts_Output := [];
  ts_Error := err; ts_FailureCode := None; ts_FailureMessage := None
|}.

(** The k-th lookup of [script], [dflt] past its end. *)
Definition scripted (script : list LookupResult) (dflt : LookupResult) (k : nat) : LookupResult :=
  match script !! k with Some r => r | None => dflt end.

(** A lookup reply that neither ends nor aborts the loop: RUNNING, or a
    transient failure of [GetTaskStatus]. *)
Definition keeps_polling (r : LookupResult) : Prop :=
  (exists st, r = LookupOk st /\ ts_Status st = TaskStatusRunning) \/
  (exists err, r = LookupErr err).

(** A poll world with instantaneous lookups replaying [script] (then
    RUNNING forever), whose first timeout check comes one nanosecond
    after [startTime]. *)
Definition run_env (script : list LookupResult) (cancel : option Z) : PollEnv := {|
  env_start := 1;
  env_cancel_at := cancel;
  env_lookup := scripted script (LookupOk (running_reply "t"));
  env_latency := fun _ => 0
|}.

(* ------------------------------------------------------------------ *)
(** ** The metering payload (metering client, buildMeteringPayload) *)

Record VideoGenerationResult := {
  vr_ID : string;
  vr_Status : TaskStatus;
  vr_OutputURLs : list string;
  vr_Duration : Z;
  vr_Model : string;
  vr_Error : option string;
  vr_FailureCode : option string;
  vr_Metadata : gmap string value  (* a nil map reads as the empty map *)
}.

(** [UsageMetadata]: an empty Go string is the empty [string]; a nil
    pointer is [None]; a nil [Custom] map is the empty map. *)
Record UsageMetadata := {
  OrganizationID : string;
  ProductID : string;
  TaskType : string;
  Agent : string;
  SubscriptionID : string;
  TraceID : string;
  ParentTransactionID : string;
  TraceType : string;
  TraceName : string;
  Environment : string;
  Region : string;
  RetryNumber : option Z;
  CredentialAlias : string;
  Subscriber : option (list (string * value));
  TaskID : string;
  ResponseQualityScore : option float64;
  Custom : gmap string value
}.

(** [for k, v := range m { if _, exists := payload[k]; !exists { payload[k] = v } }] *)
Definition merge_absent (payload m : gmap string value) : gmap string value :=
  map_fold (fun k v acc =>
              match acc !! k with
              | Some _ => acc
              | None => <[k := v]> acc
              end) payload m.

(** Lines 59-69. *)
Definition video_duration_seconds (md : gmap string value) : float64 :=
  match md !! "duration" with
  | Some (VInt dur) => float64_of_int dur
  | Some (VFloat dur) => dur
  | _ =>
      match md !! "durationSeconds" with
      | Some (VFloat dur) => dur
      | _ => float64_5
      end
  end.

(** Lines 51-57. *)
Definition stop_reason (status : TaskStatus) : string :=
  if String.eqb status TaskStatusFailed then "ERROR"
  else if String.eqb status TaskStatusCanceled then "CANCELLED"
  else "END".

(** The field-by-field [if x != "" { payload[k] = x }] of lines 108-157,
    in source order: [None] when the field is skipped. *)
Definition nonempty (key s : string) : string * option value :=
  (key, if String.eqb s "" then None else Some (VString s)).

Definition caller_entries (md : UsageMetadata) : list (string * option value) := [
  nonempty "organizationId" (OrganizationID md);
  nonempty "productId" (ProductID md);
  nonempty "taskType" (TaskType md);
  nonempty "agent" (Agent md);
  nonempty "subscriptionId" (SubscriptionID md);
  nonempty "traceId" (TraceID md);
  nonempty "parentTransactionId" (ParentTransactionID md);
  nonempty "traceType" (TraceType md);
  nonempty "traceName" (TraceName md);
  nonempty "environment" (Environment md);
  nonempty "region" (Region md);
  ("retryNumber", option_map VInt (RetryNumber md));
  nonempty "credentialAlias" (CredentialAlias md);
  ("subscriber", option_map VMap (Subscriber md));
  nonempty "taskId" (TaskID md);
  ("responseQualityScore", option_map VFloat (ResponseQualityScore md))
].

Definition set_entry (payload : gmap string value) (e : string * option value) : gmap string value :=
  match e.2 with
  | Some v => <[e.1 := v]> payload
  | None => payload
  end.

Definition add_caller_fields (md : UsageMetadata) (payload : gmap string value) : gmap string value :=
  fold_left set_entry (caller_entries md) payload.

Section Payload.

(** [time.Time.Format(time.RFC3339)], left abstract. *)
Variable Format_RFC3339 : Z -> string.

(** Lines 72-95: the map literal and the error fields. *)
Definition computed_fields (now : Z) (result : VideoGenerationResult) : gmap string value :=
  let requestTime := now - vr_Duration result in
  let payload : gmap string value := list_to_map [
    ("operationType", VString "VIDEO");
    ("provider", VString "runway");
    ("modelSource", VString "RUNWAY");
    ("model", VString (vr_Model result));
    ("transactionId", VString (vr_ID result));
    ("requestTime", VString (Format_RFC3339 requestTime));
    ("responseTime", VString (Format_RFC3339 now));
    ("requestDuration", VInt64 (Z.quot (vr_Duration result) 1000000));
    ("durationSeconds", VFloat (video_duration_seconds (vr_Metadata result)));
    ("stopReason", VString (stop_reason (vr_Status result)));
    ("costType", VString "AI");
    ("isStreamed", VBool false);
    ("middlewareSource", VString "revenium-middleware-runway-go")] in
  let payload :=
    match vr_Error result with
    | Some e => <["stopReason" := VString "ERROR"]> (<["errorReason" := VString e]> payload)
    | None => payload
    end in
  match vr_FailureCode result with
  | Some c => <["failureCode" := VString c]> payload
  | None => payload
  end.

(** [buildMeteringPayload(result, metadata)] at wall-clock time [now]. *)
Definition buildMeteringPayload (now : Z) (result : VideoGenerationResult)
    (metadata : option UsageMetadata) : gmap string value :=
  let payload := computed_fields now result in
  let payload := merge_absent payload (vr_Metadata result) in
  match metadata with
  | None => payload
  | Some md => merge_absent (add_caller_fields md payload) (Custom md)
  end.

End Payload.

(* ------------------------------------------------------------------ *)
(** ** Configuration (config.go) *)

Record Config := {
  RunwayAPIKey : string;
  RunwayBaseURL : string;
  RunwayVersion : string;
  ReveniumAPIKey : string;
  ReveniumBaseURL : string;
  ReveniumOrgID : string;
  ReveniumProductID : string;
  LogLevel : string;
  VerboseStartup : bool
}.

Definition empty_config : Config := {|
  RunwayAPIKey := ""; RunwayBaseURL := ""; RunwayVersion := "";
  ReveniumAPIKey := ""; ReveniumBaseURL := ""; ReveniumOrgID := "";
  ReveniumProductID := ""; LogLevel := ""; VerboseStartup := false
|}.

(** [type Option func( *Config)] *)
Definition Option := Config -> Config.

(** The process environment, after the .env files have been loaded;
    [os.Getenv] of an unset variable is [""]. *)
Definition Environ := gmap string string.

Definition Getenv (env : Environ) (key : string) : string :=
  match env !! key with Some v => v | None => "" end.

Definition getEnvOrDefault (env : Environ) (key defaultValue : string) : string :=
  let value := Getenv env key in
  if String.eqb value "" then defaultValue else value.

Definition has_suffix (suf s : string) : bool :=
  (String.length suf <=? String.length s)%nat &&
  String.eqb (String.substring (String.length s - String.length suf) (String.length suf) s) suf.

Definition drop_suffix (n : nat) (s : string) : string :=
  String.substring 0 (String.length s - n) s.

Definition NormalizeReveniumBaseURL (baseURL : string) : string :=
  if String.eqb baseURL "" then "https://api.revenium.ai"
  else
    let baseURL := if has_suffix "/" baseURL then drop_suffix 1 baseURL else baseURL in
    if has_suffix "/meter/v2" baseURL then drop_suffix 9 baseURL
    else if has_suffix "/meter" baseURL then drop_suffix 6 baseURL
    else if has_suffix "/v2" baseURL then drop_suffix 3 baseURL
    else baseURL.

(** [LoadFromEnv] overwrites every field and never fails. *)
Definition LoadFromEnv (env : Environ) (c : Config) : Config := {|
  RunwayAPIKey := Getenv env "RUNWAY_API_KEY";
  RunwayBaseURL := getEnvOrDefault env "RUNWAY_BASE_URL" "https://api.runwayml.com";
  RunwayVersion := getEnvOrDefault env "RUNWAY_VERSION" "2024-11-06";
  ReveniumAPIKey := Getenv env "REVENIUM_METERING_API_KEY";
  ReveniumBaseURL :=
    NormalizeReveniumBaseURL (getEnvOrDefault env "REVENIUM_METERING_BASE_URL" "https://api.revenium.ai");
  ReveniumOrgID := Getenv env "REVENIUM_ORGANIZATION_ID";
  ReveniumProductID := Getenv env "REVENIUM_PRODUCT_ID";
  LogLevel := getEnvOrDefault env "REVENIUM_LOG_LEVEL" "INFO";
  VerboseStartup :=
    String.eqb (Getenv env "REVENIUM_VERBOSE_STARTUP") "true" ||
    String.eqb (Getenv env "REVENIUM_VERBOSE_STARTUP") "1"
|}.

Definition isValidAPIKeyFormat (key : string) : bool :=
  if (String.length key <? 4)%nat then false
  else String.eqb (String.substring 0 4 key) "hak_".

Definition Validate (c : Config) : option error :=
  if String.eqb (ReveniumAPIKey c) "" then
    Some (NewConfigError "REVENIUM_METERING_API_KEY is required" None)
  else if negb (isValidAPIKeyFormat (ReveniumAPIKey c)) then
    Some (NewConfigError "invalid Revenium API key format" None)
  else if String.eqb (RunwayAPIKey c) "" then
    Some (NewConfigError "RUNWAY_API_KEY is required" None)
  else None.

(* ------------------------------------------------------------------ *)
(** ** Metering delivery (sendMeteringRequest, sendWithRetry) *)

(** What the accounting endpoint does with the k-th request. *)
Inductive MeterReply :=
| ReplyNetErr (cause : error)
| ReplyStatus (code : Z) (body : string).

(** [json.Marshal] refuses NaN and infinite floats. *)
Definition float64_is_finite (f : float64) : bool :=
  match f with
  | S754_zero _ | S754_finite _ _ _ => true
  | _ => false
  end.

Fixpoint value_marshals (v : value) : bool :=
  match v with
  | VFloat f => float64_is_finite f
  | VMap kvs =>
      (fix go (kvs : list (string * value)) : bool :=
         match kvs with
         | [] => true
         | (_, v) :: kvs => value_marshals v && go kvs
         end) kvs
  | _ => true
  end.

Definition payload_marshals (payload : gmap string value) : bool :=
  forallb (fun kv => value_marshals kv.2) (map_to_list payload).

(** One POST to [/meter/v2/ai/video] (the request URL is taken to be
    well formed, so [http.NewRequestWithContext] does not fail). *)
Definition sendMeteringRequest (cfg : Config) (payload : gmap string value)
    (reply : MeterReply) : option error :=
  if String.eqb (ReveniumAPIKey cfg) "" then
    Some (NewConfigError "Revenium API key not configured" None)
  else if negb (payload_marshals payload) then
    Some (NewMeteringError "failed to marshal metering payload"
            (Some (PlainError "json: unsupported value")))
  else
    match reply with
    | ReplyNetErr cause => Some (NewNetworkError "metering request failed" (Some cause))
    | ReplyStatus code body =>
        if (code <? 200) || (300 <=? code) then
          if (400 <=? code) && (code <? 500) then
            Some (NewValidationError
                    ("metering API returned " +:+ pretty code +:+ ": " +:+ body) None)
          else
            Some (NewMeteringError "metering API error"
                    (Some (PlainError ("status " +:+ pretty code +:+ ": " +:+ body))))
        else None
    end.

Inductive MeterEvent :=
| MAttempt (attempt : nat)
| MSleep (d : Z).

Definition maxRetries : nat := 3.
Definition millisecond : Z := 1000000.
Definition initialBackoff : Z := 100 * millisecond.

(** The [for attempt := 0; attempt < maxRetries; attempt++] loop;
    [remaining] is [maxRetries - attempt]. *)
Fixpoint retry_loop (cfg : Config) (payload : gmap string value) (replies : nat -> MeterReply)
    (remaining attempt : nat) (backoff : Z) (lastErr : option error)
    : option error * list MeterEvent :=
  match remaining with
  | O => (Some (NewMeteringError "metering failed after retries" lastErr), [])
  | S remaining =>
      let '(slept_tr, backoff) :=
        if (0 <? attempt)%nat then ([MSleep backoff], backoff * 2) else ([], backoff) in
      match sendMeteringRequest cfg payload (replies attempt) with
      | None => (None, slept_tr ++ [MAttempt attempt])
      | Some err =>
          if IsValidationError err then (Some err, slept_tr ++ [MAttempt attempt])
          else
            let '(o, tr) := retry_loop cfg payload replies remaining (S attempt) backoff (Some err) in
            (o, slept_tr ++ MAttempt attempt :: tr)
      end
  end.

Definition sendWithRetry (cfg : Config) (payload : gmap string value) (replies : nat -> MeterReply)
    : option error * list MeterEvent :=
  retry_loop cfg payload replies maxRetries 0 initialBackoff None.

Fixpoint attempts_of (tr : list MeterEvent) : nat :=
  match tr with
  | [] => O
  | MAttempt _ :: tr => S (attempts_of tr)
  | _ :: tr => attempts_of tr
  end.

(** The replies of a finite script, a network failure past its end. *)
Definition replies_of (script : list Z) (k : nat) : MeterReply :=
  match script !! k with
  | Some code => ReplyStatus code ""
  | None => ReplyNetErr (PlainError "connection refused")
  end.

(* ------------------------------------------------------------------ *)
(** ** The orchestrator (middleware.go) *)

Record ImageToVideoRequest := {
  i2v_PromptImage : string;
  i2v_PromptText : string;
  i2v_Model : string;
  i2v_Duration : Z;
  i2v_Ratio : string;
  i2v_Seed : option Z;
  i2v_Watermark : option bool
}.

Record VideoToVideoRequest := {
  v2v_PromptVideo : string;
  v2v_PromptText : string;
  v2v_Model : string;
  v2v_Duration : Z;
  v2v_Seed : option Z;
  v2v_Watermark : option bool
}.

Record VideoUpscaleRequest := {
  up_PromptVideo : string;
  up_Model : string
}.

(** A spawned [go func() { defer r.wg.Done(); r.sendMetering(...) }()]:
    the result and usage metadata it will meter. *)
Definition DispatchUnit := (VideoGenerationResult * option UsageMetadata)%type.

(** The mutable part of a [*ReveniumRunway]: its configuration, the
    WaitGroup counter and the dispatch units spawned so far. *)
Record ReveniumRunway := {
  rr_config : Config;
  rr_wg : Z;
  rr_spawned : list DispatchUnit
}.

(** The world seen by one generate call: the reply to the task creation
    POST, the world of the poll loop, and [time.Since(startTime)] when
    the result is built. *)
Record CallEnv := {
  create_reply : TaskResponse + error;
  poll_env : PollEnv;
  call_elapsed : Z
}.

(** The pair [( *VideoGenerationResult, error)] paired with the client's new state. *)
Definition CallOutcome := ((option VideoGenerationResult * option error) * ReveniumRunway)%type.

(** [r.wg.Add(1); go ...] *)
Definition spawn_metering (r : ReveniumRunway) (u : DispatchUnit) : ReveniumRunway := {|
  rr_config := rr_config r;
  rr_wg := rr_wg r + 1;
  rr_spawned := rr_spawned r ++ [u]
|}.

(** Lines 124-171 of [ImageToVideo], shared word for word by the three
    operations; [model] is [req.Model] after defaulting and [meta] the
    result's [Metadata]. *)
Definition generate (env : CallEnv) (model : string) (meta : gmap string value)
    (metadata : option UsageMetadata) (r : ReveniumRunway) : CallOutcome :=
  match create_reply env with
  | inr err => ((None, Some err), r)
  | inl taskResp =>
      match fst (WaitForTaskCompletion (Some DefaultPollingConfig) (poll_env env)) with
      | (_, Some err) => ((None, Some err), r)
      | (None, None) => ((None, None), r)  (* never returned by the poller *)
      | (Some statusResp, None) =>
          let result := {|
            vr_ID := tr_ID taskResp;
            vr_Status := ts_Status statusResp;
            vr_OutputURLs := ts_Output statusResp;
            vr_Duration := call_elapsed env;
            vr_Model := model;
            vr_Error := ts_Error statusResp;
            vr_FailureCode := ts_FailureCode statusResp;
            vr_Metadata := meta
          |} in
          ((Some result, None), spawn_metering r (result, metadata))
      end
  end.

(** [result.Metadata["requestedDuration"] = req.Duration] (or 5). *)
Definition requested_duration_metadata (duration : Z) : gmap string value :=
  <["requestedDuration" := VInt (if 0 <? duration then duration else 5)]> ∅.

Definition ImageToVideo (env : CallEnv) (req : ImageToVideoRequest)
    (metadata : option UsageMetadata) (r : ReveniumRunway) : CallOutcome :=
  let model := if String.eqb (i2v_Model req) "" then "gen3a_turbo" else i2v_Model req in
  generate env model (requested_duration_metadata (i2v_Duration req)) metadata r.

Definition VideoToVideo (env : CallEnv) (req : VideoToVideoRequest)
    (metadata : option UsageMetadata) (r : ReveniumRunway) : CallOutcome :=
  let model := if String.eqb (v2v_Model req) "" then "gen3a_turbo" else v2v_Model req in
  generate env model (requested_duration_metadata (v2v_Duration req)) metadata r.

(** [UpscaleVideo] leaves [Metadata] nil. *)
Definition UpscaleVideo (env : CallEnv) (req : VideoUpscaleRequest)
    (metadata : option UsageMetadata) (r : ReveniumRunway) : CallOutcome :=
  let model := if String.eqb (up_Model req) "" then "upscale" else up_Model req in
  generate env model ∅ metadata r.

(** What a dispatch unit does once it runs: [SendVideoMetering]. *)
Definition SendVideoMetering (Format_RFC3339 : Z -> string) (now : Z) (cfg : Config)
    (replies : nat -> MeterReply) (u : DispatchUnit) : option error * list MeterEvent :=
  sendWithRetry cfg (buildMeteringPayload Format_RFC3339 now u.1 u.2) replies.

(* ------------------------------------------------------------------ *)
(** ** The global client (Initialize) *)

Record GlobalState := {
  globalClient : option ReveniumRunway;
  initialized : bool
}.

(** [Initialize(opts...)]: [env] is the process environment. *)
Definition Initialize (opts : list Option) (env : Environ) (g : GlobalState)
    : option error * GlobalState :=
  if initialized g then (None, g)
  else
    let cfg := fold_left (fun c (opt : Option) => opt c) opts empty_config in
    let cfg := LoadFromEnv env cfg in
    match Validate cfg with
    | Some err => (Some err, g)
    | None =>
        (None, {| globalClient := Some {| rr_config := cfg; rr_wg := 0; rr_spawned := [] |};
                  initialized := true |})
    end.

Definition WithRunwayAPIKey (key : string) : Option := fun c => {|
  RunwayAPIKey := key; RunwayBaseURL := RunwayBaseURL c; RunwayVersion := RunwayVersion c;
  ReveniumAPIKey := ReveniumAPIKey c; ReveniumBaseURL := ReveniumBaseURL c;
  ReveniumOrgID := ReveniumOrgID c; ReveniumProductID := ReveniumProductID c;
  LogLevel := LogLevel c; VerboseStartup := VerboseStartup c |}.

Definition WithReveniumAPIKey (key : string) : Option := fun c => {|
  RunwayAPIKey := RunwayAPIKey c; RunwayBaseURL := RunwayBaseURL c; RunwayVersion := RunwayVersion c;
  ReveniumAPIKey := key; ReveniumBaseURL := ReveniumBaseURL c;
  ReveniumOrgID := ReveniumOrgID c; ReveniumProductID := ReveniumProductID c;
  LogLevel := LogLevel c; VerboseStartup := VerboseStartup c |}.

(** A configuration with a well-formed Revenium key. *)
Definition good_cfg : Config := LoadFromEnv (<["REVENIUM_METERING_API_KEY" := "hak_x"]> ∅) empty_config.

(* ------------------------------------------------------------------ *)
(** ** Helpers for stating properties *)

(** The first present value: the value a later, non-overwriting source
    can contribute only where the earlier one has none. *)
Definition orelse {A} (x y : option A) : option A :=
  match x with Some _ => x | None => y end.

(** The identification fields a caller's [UsageMetadata] contributes. *)
Definition caller_fields (md : UsageMetadata) : gmap string value := add_caller_fields md ∅.

Definition empty_usage_metadata : UsageMetadata := {|
  OrganizationID := ""; ProductID := ""; TaskType := ""; Agent := "";
  SubscriptionID := ""; TraceID := ""; ParentTransactionID := ""; TraceType := "";
  TraceName := ""; Environment := ""; Region := ""; RetryNumber := None;
  CredentialAlias := ""; Subscriber := None; TaskID := "";
  ResponseQualityScore := None; Custom := ∅ |}.

Definition with_organization (org : string) (md : UsageMetadata) : UsageMetadata := {|
  OrganizationID := org; ProductID := ProductID md; TaskType := TaskType md; Agent := Agent md;
  SubscriptionID := SubscriptionID md; TraceID := TraceID md;
  ParentTransactionID := ParentTransactionID md; TraceType := TraceType md;
  TraceName := TraceName md; Environment := Environment md; Region := Region md;
  RetryNumber := RetryNumber md; CredentialAlias := CredentialAlias md;
  Subscriber := Subscriber md; TaskID := TaskID md;
  ResponseQualityScore := ResponseQualityScore md; Custom := Custom md |}.

Definition sample_result (status : TaskStatus) (err : option string)
    (meta : gmap string value) : VideoGenerationResult := {|
  vr_ID := "task_1"; vr_Status := status; vr_OutputURLs := []; vr_Duration := 60 * second;
  vr_Model := "gen3a_turbo"; vr_Error := err; vr_FailureCode := None; vr_Metadata := meta |}.

Definition fixed_clock (_ : Z) : string := "2026-01-01T00:00:00Z".

Definition sample_task : TaskResponse := {| tr_ID := "task_1"; tr_Status := TaskStatusPending; tr_Error := None |}.

(** A call whose task is created and whose first status lookup returns
    [status] with error message [err]. *)
Definition call_env (status : TaskStatus) (err : option string) : CallEnv := {|
  create_reply := inl sample_task;
  poll_env := run_env [LookupOk (status_reply "task_1" status err)] None;
  call_elapsed := 60 * second |}.

Definition sample_client : ReveniumRunway := {| rr_config := good_cfg; rr_wg := 0; rr_spawned := [] |}.

Definition sample_i2v : ImageToVideoRequest := {|
  i2v_PromptImage := "https://example.com/cat.png"; i2v_PromptText := ""; i2v_Model := "";
  i2v_Duration := 10; i2v_Ratio := "16:9"; i2v_Seed := None; i2v_Watermark := None |}.

Definition sample_v2v : VideoToVideoRequest := {|
  v2v_PromptVideo := "https://example.com/cat.mp4"; v2v_PromptText := ""; v2v_Model := "";
  v2v_Duration := 10; v2v_Seed := None; v2v_Watermark := None |}.

Definition sample_upscale : VideoUpscaleRequest := {|
  up_PromptVideo := "https://example.com/cat.mp4"; up_Model := "" |}.

(** A delivery failure [sendWithRetry] retries: a network error or a 5xx
    status. *)
Definition retryable_failure (reply : MeterReply) : Prop :=
  (exists cause, reply = ReplyNetErr cause) \/
  (exists code body, reply = ReplyStatus code body /\ 500 <= code).

(** A process environment with both API keys set. *)
Definition keyed_environ : Environ :=
  <["REVENIUM_METERING_API_KEY" := "hak_test"]> (<["RUNWAY_API_KEY" := "key_test"]> ∅).

Definition fresh_global : GlobalState := {| globalClient := None; initialized := false |}.

Definition keyed_global : GlobalState := {|
  globalClient := Some {| rr_config := LoadFromEnv keyed_environ empty_config;
                          rr_wg := 0; rr_spawned := [] |};
  initialized := true |}.

(** Parameters used by the concrete scenarios below. *)
Definition short_timeout_cfg : PollingConfig := {|
  MaxAttempts := 3; InitialInterval := 2 * second;
  MaxInterval := 10 * second; Timeout := second |}.

(** A zero [Timeout]: the first check already sees time elapsed. *)
Definition zero_timeout_cfg : PollingConfig := {|
  MaxAttempts := 3; InitialInterval := 2 * second;
  MaxInterval := 10 * second; Timeout := 0 |}.

Definition no_attempts_cfg : PollingConfig := {|
  MaxAttempts := 0; InitialInterval := 2 * second;
  MaxInterval := 10 * second; Timeout := 20 * minute |}.

(** A transient failure, then RUNNING, then SUCCEEDED. *)
Definition flaky_env : PollEnv :=
  run_env [LookupErr (NewNetworkError "HTTP request failed" None);
           LookupOk (running_reply "t");
           LookupOk (status_reply "t" TaskStatusSucceeded None)] None.

(** The result of a call on [call_env SUCCEEDED] with [sample_i2v]. *)
Definition sample_i2v_result : VideoGenerationResult := {|
  vr_ID := "task_1"; vr_Status := TaskStatusSucceeded; vr_OutputURLs := [];
  vr_Duration := 60 * second; vr_Model := "gen3a_turbo"; vr_Error := None;
  vr_FailureCode := None; vr_Metadata := requested_duration_metadata 10 |}.

(** Unfolds one round of the retry loop, leaving [sendMeteringRequest] folded. *)
Ltac retry_step :=
  cbn [sendWithRetry retry_loop maxRetries Nat.ltb Nat.leb app fst snd attempts_of].

(* ------------------------------------------------------------------ *)
(** ** The [*ReveniumError] struct and its methods (errors.go) *)

(** The remaining [Is...Error] predicates. *)
Definition IsConfigError := has_error_type ErrorTypeConfig.
Definition IsProviderError := has_error_type ErrorTypeProvider.
Definition IsAuthError := has_error_type ErrorTypeAuth.
Definition IsNetworkError := has_error_type ErrorTypeNetwork.

(** [errors.As(err, &revErr)] *)
Definition IsReveniumError (e : error) : bool :=
  match as_revenium_error e with Some _ => true | None => false end.

(** The seven typed predicates in source order. *)
Definition type_checks (e : error) : list bool :=
  [IsConfigError e; IsMeteringError e; IsProviderError e; IsAuthError e;
   IsNetworkError e; IsTaskError e; IsValidationError e].

(** The whole struct, for the methods that read [StatusCode] and
    [Details]; a nil [Details] map is [None]. *)
Record ReveniumErrorObj := {
  ro_Type : ErrorType;
  ro_Message : string;
  ro_Err : option error;
  ro_StatusCode : Z;
  ro_Details : option (gmap string value)
}.

(** [&ReveniumError{Type: t, Message: m, Err: e}], as every [New...Error]
    builds it. *)
Definition mk_error_obj (t : ErrorType) (m : string) (e : option error) : ReveniumErrorObj := {|
  ro_Type := t; ro_Message := m; ro_Err := e; ro_StatusCode := 0; ro_Details := None |}.

(** [GetStatusCode]; an [ErrorType] outside the eight constants would also
    take the [default] branch. *)
Definition GetStatusCode (e : ReveniumErrorObj) : Z :=
  if negb (ro_StatusCode e =? 0) then ro_StatusCode e
  else
    match ro_Type e with
    | ErrorTypeConfig | ErrorTypeValidation => 400
    | ErrorTypeAuth => 401
    | ErrorTypeProvider | ErrorTypeTask => 502
    | ErrorTypeNetwork => 503
    | ErrorTypeMetering => 500
    | ErrorTypeInternal => 500
    end.

(** [WithDetails] updates the error in place and returns it. *)
Definition WithDetails (key : string) (v : value) (e : ReveniumErrorObj) : ReveniumErrorObj := {|
  ro_Type := ro_Type e; ro_Message := ro_Message e; ro_Err := ro_Err e;
  ro_StatusCode := ro_StatusCode e;
  ro_Details := Some (<[key := v]> (match ro_Details e with Some d => d | None => ∅ end)) |}.

Definition GetDetails (e : ReveniumErrorObj) : gmap string value :=
  match ro_Details e with Some d => d | None => ∅ end.

(* ------------------------------------------------------------------ *)
(** ** The Runway HTTP exchange (runway client, doRequest) *)

(** What [c.httpClient.Do] and [io.ReadAll] give. *)
Inductive HTTPReply :=
| HTTPErr (cause : error)
| HTTPBodyErr (cause : error)
| HTTPResp (code : Z) (body : string).

Section RunwayHTTP.

Variable A : Type.
(** [json.Unmarshal(bodyBytes, &runwayError)]: [None] when it fails,
    otherwise [Error.Type], [Error.Message] and [Error.Code]. *)
Variable unmarshal_error_response : string -> option (string * string * string).
(** [json.Unmarshal(bodyBytes, result)] *)
Variable decode : string -> A + error.

Definition doRequest (reply : HTTPReply) : A + ReveniumErrorObj :=
  match reply with
  | HTTPErr cause => inr (mk_error_obj ErrorTypeNetwork "HTTP request failed" (Some cause))
  | HTTPBodyErr cause =>
      inr (mk_error_obj ErrorTypeNetwork "failed to read response body" (Some cause))
  | HTTPResp code body =>
      let generic :=
        mk_error_obj ErrorTypeProvider
          ("Runway API returned status " +:+ pretty code +:+ ": " +:+ body) None in
      if (code <? 200) || (300 <=? code) then
        match unmarshal_error_response body with
        | Some (ty, msg, c) =>
            if negb (String.eqb msg "") then
              inr (WithDetails "type" (VString ty)
                     (WithDetails "code" (VString c)
                        (mk_error_obj ErrorTypeProvider
                           ("Runway API error (" +:+ pretty code +:+ "): " +:+ msg) None)))
            else inr generic
        | None => inr generic
        end
      else
        match decode body with
        | inl a => inl a
        | inr err => inr (mk_error_obj ErrorTypeProvider "failed to decode response" (Some err))
        end
  end.

End RunwayHTTP.

(* ------------------------------------------------------------------ *)
(** ** The client constructors and the global state (middleware.go) *)

(** [NewReveniumRunway(cfg)]; a nil [cfg] is [None]. *)
Definition NewReveniumRunway (cfg : option Config) : option ReveniumRunway * option error :=
  match cfg with
  | None => (None, Some (NewConfigError "config cannot be nil" None))
  | Some c =>
      match Validate c with
      | Some err => (None, Some err)
      | None => (Some {| rr_config := c; rr_wg := 0; rr_spawned := [] |}, None)
      end
  end.

Definition IsInitialized (g : GlobalState) : bool := initialized g.

Definition GetClient (g : GlobalState) : option ReveniumRunway * option error :=
  if negb (initialized g) then
    (None, Some (NewConfigError "middleware not initialized, call Initialize() first" None))
  else (globalClient g, None).

(** [Reset()]: the global client is closed (after its pending dispatch
    units finish) and dropped. *)
Definition Reset (g : GlobalState) : GlobalState := {| globalClient := None; initialized := false |}.

(* ------------------------------------------------------------------ *)
(** ** Logging levels (logger.go) *)

(** [type LogLevel int] ([LogLevel] is already the [Config] field). *)
Definition LogLevel_t := Z.
Definition LogLevelDebug : LogLevel_t := 0.
Definition LogLevelInfo : LogLevel_t := 1.
Definition LogLevelWarn : LogLevel_t := 2.
Definition LogLevelError : LogLevel_t := 3.

Definition LogLevel_String (l : LogLevel_t) : string :=
  if l =? LogLevelDebug then "DEBUG"
  else if l =? LogLevelInfo then "INFO"
  else if l =? LogLevelWarn then "WARN"
  else if l =? LogLevelError then "ERROR"
  else "UNKNOWN".

(** [l.level <= LogLevelX] guarding the method of level [X]. *)
Definition logs_at (level method_level : LogLevel_t) : bool := level <=? method_level.

Section Levels.

(** [strings.ToUpper] *)
Variable ToUpper : string -> string.

Definition ParseLogLevel (level : string) : LogLevel_t :=
  let u := ToUpper level in
  if String.eqb u "DEBUG" then LogLevelDebug
  else if String.eqb u "INFO" then LogLevelInfo
  else if String.eqb u "WARN" || String.eqb u "WARNING" then LogLevelWarn
  else if String.eqb u "ERROR" then LogLevelError
  else LogLevelInfo.

(** The level [InitializeLogger] sets (its own copy of the switch). *)
Definition InitializeLogger_level (env : Environ) : LogLevel_t :=
  let logLevelStr := ToUpper (Getenv env "REVENIUM_LOG_LEVEL") in
  if String.eqb logLevelStr "DEBUG" then LogLevelDebug
  else if String.eqb logLevelStr "INFO" then LogLevelInfo
  else if String.eqb logLevelStr "WARN" || String.eqb logLevelStr "WARNING" then LogLevelWarn
  else if String.eqb logLevelStr "ERROR" then LogLevelError
  else LogLevelInfo.

End Levels.

(** The ASCII part of [strings.ToUpper]. *)
Definition ascii_upper (c : Ascii.ascii) : Ascii.ascii :=
  let n := Ascii.nat_of_ascii c in
  if (97 <=? n)%nat && (n <=? 122)%nat then Ascii.ascii_of_nat (n - 32) else c.

Fixpoint ascii_ToUpper (s : string) : string :=
  match s with
  | EmptyString => EmptyString
  | String c s => String (ascii_upper c) (ascii_ToUpper s)
  end.

(* ------------------------------------------------------------------ *)
(** ** Version detection (version.go) *)

(** [debug.Module] and [debug.BuildInfo] ([Module] is a keyword). *)
Record BuildModule := { mod_Path : string; mod_Version : string }.
Record BuildInfo := { bi_Main : BuildModule; bi_Deps : list BuildModule }.

Definition ModuleName : string := "github.com/revenium/revenium-middleware-runway-go".
Definition DefaultVersion : string := "0.0.0-dev".

Definition main_version_ok (info : BuildInfo) : bool :=
  String.eqb (mod_Path (bi_Main info)) ModuleName &&
  negb (String.eqb (mod_Version (bi_Main info)) "") &&
  negb (String.eqb (mod_Version (bi_Main info)) "(devel)").

(** The [for ... { if dep.Path == ModuleName { version = dep.Version; break } }]
    of [GetMiddlewareSource]. *)
Fixpoint dep_loop_break (deps : list BuildModule) (version : string) : string :=
  match deps with
  | [] => version
  | dep :: deps =>
      if String.eqb (mod_Path dep) ModuleName then mod_Version dep
      else dep_loop_break deps version
  end.

(** The function run under [middlewareSourceOnce.Do]; [None] when
    [debug.ReadBuildInfo] reports no build information. *)
Definition compute_middleware_source (info : option BuildInfo) : string :=
  let version :=
    match info with
    | None => DefaultVersion
    | Some info =>
        if main_version_ok info then mod_Version (bi_Main info)
        else dep_loop_break (bi_Deps info) DefaultVersion
    end in
  "revenium-middleware-runway-go@" +:+ version.

(** [GetMiddlewareSource()]: the cached value, computed on the first call. *)
Definition GetMiddlewareSource (info : option BuildInfo) (cache : option string)
    : string * option string :=
  match cache with
  | Some v => (v, cache)
  | None => let v := compute_middleware_source info in (v, Some v)
  end.

(** The [for] loop of [GetVersion], which returns from inside. *)
Fixpoint dep_loop_return (deps : list BuildModule) : option string :=
  match deps with
  | [] => None
  | dep :: deps =>
      if String.eqb (mod_Path dep) ModuleName then Some (mod_Version dep)
      else dep_loop_return deps
  end.

Definition GetVersion (info : option BuildInfo) : string :=
  let version := DefaultVersion in
  match info with
  | None => version
  | Some info =>
      if main_version_ok info then mod_Version (bi_Main info)
      else match dep_loop_return (bi_Deps info) with
           | Some v => v
           | None => version
           end
  end.

(** [n] successive calls of [GetMiddlewareSource], from [cache]. *)
Fixpoint middleware_source_calls (info : option BuildInfo) (n : nat) (cache : option string)
    : list string :=
  match n with
  | O => []
  | S n =>
      let '(v, cache) := GetMiddlewareSource info cache in
      v :: middleware_source_calls info n cache
  end.

(* ------------------------------------------------------------------ *)
(** ** Auxiliary definitions for the properties below *)

Fixpoint total_sleep (tr : list PollEvent) : Z :=
  match tr with
  | [] => 0
  | PSleep d :: tr => slept d + total_sleep tr
  | _ :: tr => total_sleep tr
  end.

Definition sleep_at_most (B : Z) (ev : PollEvent) : Prop :=
  match ev with PSleep d => d <= B | PLookup _ => True end.

Definition call_contract (env : CallEnv) (md : option UsageMetadata) (model : string)
    (r : ReveniumRunway) (out : CallOutcome) : Prop :=
  match out with
  | ((Some res, e), r') =>
      e = None /\ vr_Status res = TaskStatusSucceeded /\
      (exists t, create_reply env = inl t /\ vr_ID res = tr_ID t) /\
      vr_Model res = model /\ rr_wg r' = rr_wg r + 1 /\
      rr_spawned r' = rr_spawned r ++ [(res, md)]
  | ((None, e), r') => e <> None /\ r' = r
  end.

Definition upscale_ok_env : CallEnv := call_env TaskStatusSucceeded None.

Definition full_retry_trace : list MeterEvent :=
  [MAttempt 0; MSleep (100 * millisecond); MAttempt 1; MSleep (200 * millisecond); MAttempt 2].

(** Every attempt before the k-th failed with a retryable error. *)
Definition failed_retryable (cfg : Config) (p : gmap string value) (replies : nat -> MeterReply)
    (k : nat) : Prop :=
  forall j, (j < k)%nat ->
  exists ej, sendMeteringRequest cfg p (replies j) = Some ej /\ IsValidationError ej = false.

Definition nan_result : VideoGenerationResult :=
  sample_result TaskStatusSucceeded None (<["duration" := VFloat S754_nan]> ∅).

Definition keys_valid (c : Config) : Prop :=
  (exists rest, ReveniumAPIKey c = "hak_" +:+ rest) /\ RunwayAPIKey c <> "".

(** A base URL with none of the endings the normalisation removes. *)
Definition clean_base (b : string) : Prop :=
  b <> "" /\ has_suffix "/" b = false /\ has_suffix "/meter" b = false /\ has_suffix "/v2" b = false.

Definition strip_api_suffix (baseURL : string) : string :=
    if has_suffix "/meter/v2" baseURL then drop_suffix 9 baseURL
    else if has_suffix "/meter" baseURL then drop_suffix 6 baseURL
    else if has_suffix "/v2" baseURL then drop_suffix 3 baseURL
    else baseURL.

(** The lifecycle of the global client. *)
Definition client_of (env : Environ) : ReveniumRunway :=
  {| rr_config := LoadFromEnv env empty_config; rr_wg := 0; rr_spawned := [] |}.

Definition not_initialized_error : error :=
  NewConfigError "middleware not initialized, call Initialize() first" None.

Definition good_env : Environ :=
  <["REVENIUM_METERING_API_KEY" := "hak_test"]> (<["RUNWAY_API_KEY" := "key_test"]> ∅).

Definition g_empty : GlobalState := {| globalClient := None; initialized := false |}.

(* ================================================================== *)
(** * Properties *)
Example grow_2s : grow_interval (2 * second) = 3 * second.
Proof. vm_compute. reflexivity. Qed.

Example grow_odd : grow_interval 3 = 4.
Proof. vm_compute. reflexivity. Qed.


Example poll_rrs :
  WaitForTaskCompletion (Some DefaultPollingConfig)
    (run_env [LookupOk (running_reply "t"); LookupOk (running_reply "t");
              LookupOk (status_reply "t" TaskStatusSucceeded None)] None)
  = ((Some (status_reply "t" TaskStatusSucceeded None), None),
     [PLookup (LookupOk (running_reply "t")); PSleep (2 * second);
      PLookup (LookupOk (running_reply "t")); PSleep (3 * second);
      PLookup (LookupOk (status_reply "t" TaskStatusSucceeded None))]).
Proof. vm_compute. reflexivity. Qed.

Example payload_default_dur :
  buildMeteringPayload (fun _ => "T") 0
    {| vr_ID := "t"; vr_Status := TaskStatusSucceeded; vr_OutputURLs := []; vr_Duration := 0;
       vr_Model := "m"; vr_Error := None; vr_FailureCode := None;
       vr_Metadata := requested_duration_metadata 10 |} None !! "durationSeconds"
  = Some (VFloat float64_5).
Proof. vm_compute. reflexivity. Qed.


Example retry_500_500_200 :
  sendWithRetry good_cfg ∅ (replies_of [500; 500; 200]) =
  (None, [MAttempt 0; MSleep (100 * millisecond); MAttempt 1; MSleep (200 * millisecond); MAttempt 2]).
Proof. vm_compute. reflexivity. Qed.

(* ------------------------------------------------------------------ *)
(** ** The poll loop *)

Lemma next_interval_le_max (cfg : PollingConfig) (i : Z) :
  next_interval cfg i <= MaxInterval cfg.
Proof. unfold next_interval. destruct (_ >? _) eqn:E; lia. Qed.

Lemma poll_loop_lookups_bound (cfg : PollingConfig) (env : PollEnv) :
  forall fuel a i e k,
  (lookups (snd (poll_loop cfg env fuel a i e k)) <= Z.to_nat (MaxAttempts cfg - a))%nat.
Proof.
  induction fuel as [|fuel IH]; intros a i e k; simpl; [lia|].
  destruct (e >? Timeout cfg); simpl; [lia|].
  destruct (a + 1 >? MaxAttempts cfg) eqn:Ha; simpl; [lia|].
  destruct (ctx_done env e); simpl; [lia|].
  destruct (env_lookup env k) as [st|err].
  - destruct (String.eqb (ts_Status st) TaskStatusSucceeded); simpl; [lia|].
    destruct (String.eqb (ts_Status st) TaskStatusFailed); simpl; [lia|].
    destruct (String.eqb (ts_Status st) TaskStatusCanceled); simpl; [lia|].
    match goal with |- context [poll_loop cfg env fuel ?a' ?i' ?e' ?k'] =>
      specialize (IH a' i' e' k'); destruct (poll_loop cfg env fuel a' i' e' k') as [o tr] end.
    simpl in *. lia.
  - match goal with |- context [poll_loop cfg env fuel ?a' ?i' ?e' ?k'] =>
      specialize (IH a' i' e' k'); destruct (poll_loop cfg env fuel a' i' e' k') as [o tr] end.
    simpl in *. lia.
Qed.

Section Exhaustion.

Variables (cfg : PollingConfig) (env : PollEnv) (Lmax M : Z).
Hypothesis Hcancel : env_cancel_at env = None.
Hypothesis Hpolling : forall k, keeps_polling (env_lookup env k).
Hypothesis Hlat : forall k, 0 <= env_latency env k <= Lmax.
Hypothesis HM : MaxInterval cfg <= M.

(** With [n] attempts left and time for [n] more rounds, the loop makes
    [n] lookups and then stops on the attempt ceiling. *)
Lemma poll_loop_exhausts (n : nat) :
  forall fuel a i e k,
  (n < fuel)%nat -> a + Z.of_nat n = MaxAttempts cfg -> i <= M ->
  e + Z.of_nat n * (Lmax + Z.max 0 M) <= Timeout cfg ->
  fst (poll_loop cfg env fuel a i e k) = (None, Some (max_attempts_error cfg)) /\
  lookups (snd (poll_loop cfg env fuel a i e k)) = n.
Proof.
  assert (HL : 0 <= Lmax) by (specialize (Hlat O); lia).
  induction n as [|n IH]; intros fuel a i e k Hf Ha Hi Ht;
    destruct fuel as [|fuel]; try lia; simpl;
    rewrite ?Nat2Z.inj_succ, ?Z.mul_succ_l in Ht; cbn [Z.of_nat] in Ht.
  - destruct (Z.gtb_spec e (Timeout cfg)); [lia|].
    destruct (Z.gtb_spec (a + 1) (MaxAttempts cfg)); [|lia]. simpl. auto.
  - assert (0 <= Z.of_nat n * (Lmax + Z.max 0 M)) by (apply Z.mul_nonneg_nonneg; lia).
    destruct (Z.gtb_spec e (Timeout cfg)); [lia|].
    destruct (Z.gtb_spec (a + 1) (MaxAttempts cfg)); [lia|].
    unfold ctx_done. rewrite Hcancel.
    specialize (Hlat k).
    destruct (Hpolling k) as [[st [-> Hst]] | [err ->]].
    + rewrite Hst. simpl.
      pose proof (next_interval_le_max cfg i).
      edestruct (IH fuel (a + 1) (next_interval cfg i) (e + env_latency env k + slept i) (S k)) as [IH1 IH2];
        [lia | lia | lia | | ].
      { unfold slept. lia. }
      destruct (poll_loop _ _ _ _ _ _ _) as [o tr]. simpl in *. auto.
    + edestruct (IH fuel (a + 1) i (e + env_latency env k + slept i) (S k)) as [IH1 IH2]; [lia | lia | lia | | ].
      { unfold slept. lia. }
      destruct (poll_loop _ _ _ _ _ _ _) as [o tr]. simpl in *. auto.
Qed.

End Exhaustion.

(** C7. With [MaxAttempts = 3] the poller never makes a fourth lookup;
    when every reply is RUNNING or a transient lookup failure, nothing
    cancels the call and the timeout leaves room for three rounds, it makes
    exactly three lookups (a failed lookup counts as one) and fails with a
    TaskError. *)
Theorem WaitForTaskCompletion_three_attempts (cfg : PollingConfig) (env : PollEnv) (Lmax : Z) :
  MaxAttempts cfg = 3 ->
  (forall env' : PollEnv, (lookups (snd (WaitForTaskCompletion (Some cfg) env')) <= 3)%nat) /\
  (env_cancel_at env = None ->
   (forall k, keeps_polling (env_lookup env k)) ->
   (forall k, 0 <= env_latency env k <= Lmax) ->
   env_start env + 3 * (Lmax + Z.max 0 (Z.max (InitialInterval cfg) (MaxInterval cfg))) <= Timeout cfg ->
   fst (WaitForTaskCompletion (Some cfg) env) = (None, Some (max_attempts_error cfg)) /\
   IsTaskError (max_attempts_error cfg) = true /\
   lookups (snd (WaitForTaskCompletion (Some cfg) env)) = 3%nat).
Proof.
  intros Hmax. split.
  - intros env'. unfold WaitForTaskCompletion.
    pose proof (poll_loop_lookups_bound cfg env' (S (Z.to_nat (MaxAttempts cfg))) 0
                  (InitialInterval cfg) (env_start env') 0) as H.
    rewrite Hmax in *. exact H.
  - intros Hc Hp Hl Ht. unfold WaitForTaskCompletion. rewrite Hmax.
    destruct (poll_loop_exhausts cfg env Lmax (Z.max (InitialInterval cfg) (MaxInterval cfg))
                Hc Hp Hl ltac:(lia) 3 (S (Z.to_nat 3)) 0 (InitialInterval cfg) (env_start env) 0)
      as [H1 H2]; [simpl; lia | lia | lia | simpl; lia | ].
    repeat split; auto.
Qed.

Lemma WaitForTaskCompletion_three_attempts_witness :
  let cfg := {| MaxAttempts := 3; InitialInterval := 2 * second;
                MaxInterval := 10 * second; Timeout := 20 * minute |} in
  let env := run_env [] None in
  fst (WaitForTaskCompletion (Some cfg) env) = (None, Some (max_attempts_error cfg)) /\
  lookups (snd (WaitForTaskCompletion (Some cfg) env)) = 3%nat.
Proof.
  intros cfg env.
  destruct (WaitForTaskCompletion_three_attempts cfg env 0 eq_refl) as [_ H].
  destruct H as [H1 [_ H2]].
  - reflexivity.
  - intros k. left. exists (running_reply "t"). split; reflexivity.
  - intros k. simpl. lia.
  - vm_compute. discriminate.
  - split; assumption.
Defined.

(** C3, as stated, fails: the context is already done when the second
    iteration starts, yet the loop reports the timeout, not the
    cancellation; and with [MaxAttempts = 0] a cancellation signalled before
    the first lookup yields the attempt-ceiling error. *)
Lemma cancellation_not_checked_first :
  ctx_done (run_env [] (Some second)) (2 * second) = true /\
  WaitForTaskCompletion (Some short_timeout_cfg) (run_env [] (Some second)) =
    ((None, Some (timeout_error short_timeout_cfg)),
     [PLookup (LookupOk (running_reply "t")); PSleep (2 * second)]) /\
  WaitForTaskCompletion (Some no_attempts_cfg) (run_env [] (Some 0)) =
    ((None, Some (max_attempts_error no_attempts_cfg)), []).
Proof. vm_compute. repeat split. Qed.

(** C3, amended. Each iteration checks the elapsed time against the
    timeout first, then the attempt count against [MaxAttempts], then the
    cancellation, and only then makes one status lookup. A cancellation
    signalled before the first lookup returns the context error with no
    lookup when the first timeout check passes (the time elapsed since
    the call started does not exceed [Timeout]) and [MaxAttempts >= 1];
    when that check fails, the timeout error is returned instead. *)
Theorem poll_iteration_check_order (cfg : PollingConfig) (env : PollEnv) :
  (forall fuel a i e k, Timeout cfg < e ->
     poll_loop cfg env (S fuel) a i e k = ((None, Some (timeout_error cfg)), [])) /\
  (forall fuel a i e k, e <= Timeout cfg -> MaxAttempts cfg < a + 1 ->
     poll_loop cfg env (S fuel) a i e k = ((None, Some (max_attempts_error cfg)), [])) /\
  (forall fuel a i e k, e <= Timeout cfg -> a + 1 <= MaxAttempts cfg -> ctx_done env e = true ->
     poll_loop cfg env (S fuel) a i e k = ((None, Some ContextCanceled), [])) /\
  (forall fuel a i e k, e <= Timeout cfg -> a + 1 <= MaxAttempts cfg -> ctx_done env e = false ->
     exists tr, snd (poll_loop cfg env (S fuel) a i e k) = PLookup (env_lookup env k) :: tr) /\
  (env_start env <= Timeout cfg -> 1 <= MaxAttempts cfg -> ctx_done env (env_start env) = true ->
     WaitForTaskCompletion (Some cfg) env = ((None, Some ContextCanceled), [])) /\
  (Timeout cfg < env_start env ->
     WaitForTaskCompletion (Some cfg) env = ((None, Some (timeout_error cfg)), [])).
Proof.
  assert (Hc : forall fuel a i e k, e <= Timeout cfg -> a + 1 <= MaxAttempts cfg ->
            ctx_done env e = true ->
            poll_loop cfg env (S fuel) a i e k = ((None, Some ContextCanceled), [])).
  { intros fuel a i e k He Ha Hd. simpl.
    destruct (Z.gtb_spec e (Timeout cfg)); [lia|].
    destruct (Z.gtb_spec (a + 1) (MaxAttempts cfg)); [lia|].
    rewrite Hd. reflexivity. }
  split; [|split; [|split; [exact Hc|split; [|split]]]].
  - intros fuel a i e k He. simpl.
    destruct (Z.gtb_spec e (Timeout cfg)); [reflexivity|lia].
  - intros fuel a i e k He Ha. simpl.
    destruct (Z.gtb_spec e (Timeout cfg)); [lia|].
    destruct (Z.gtb_spec (a + 1) (MaxAttempts cfg)); [reflexivity|lia].
  - intros fuel a i e k He Ha Hd. simpl.
    destruct (Z.gtb_spec e (Timeout cfg)); [lia|].
    destruct (Z.gtb_spec (a + 1) (MaxAttempts cfg)); [lia|].
    rewrite Hd.
    destruct (env_lookup env k) as [st|err].
    + destruct (String.eqb (ts_Status st) TaskStatusSucceeded); [eexists; reflexivity|].
      destruct (String.eqb (ts_Status st) TaskStatusFailed); [eexists; reflexivity|].
      destruct (String.eqb (ts_Status st) TaskStatusCanceled); [eexists; reflexivity|].
      destruct (poll_loop _ _ _ _ _ _ _). eexists; reflexivity.
    + destruct (poll_loop _ _ _ _ _ _ _). eexists; reflexivity.
  - intros Ht Hm Hd. unfold WaitForTaskCompletion. apply Hc; lia || assumption.
  - intros Ht. unfold WaitForTaskCompletion. simpl.
    destruct (Z.gtb_spec (env_start env) (Timeout cfg)); [reflexivity|lia].
Qed.

Lemma poll_iteration_check_order_witness :
  WaitForTaskCompletion (Some DefaultPollingConfig) (run_env [] (Some 0)) =
    ((None, Some ContextCanceled), []) /\
  WaitForTaskCompletion (Some zero_timeout_cfg) (run_env [] (Some 0)) =
    ((None, Some (timeout_error zero_timeout_cfg)), []).
Proof.
  split.
  - apply (proj1 (proj2 (proj2 (proj2 (proj2 (poll_iteration_check_order DefaultPollingConfig
                                                (run_env [] (Some 0)))))))).
    + vm_compute. discriminate.
    + vm_compute. discriminate.
    + reflexivity.
  - apply (proj2 (proj2 (proj2 (proj2 (proj2 (poll_iteration_check_order zero_timeout_cfg
                                                (run_env [] (Some 0)))))))).
    vm_compute. reflexivity.
Defined.

Lemma poll_loop_backoff (cfg : PollingConfig) (env : PollEnv) :
  forall fuel a i e k, backoff_as_coded cfg i (snd (poll_loop cfg env fuel a i e k)).
Proof.
  induction fuel as [|fuel IH]; intros a i e k; simpl; [exact I|].
  destruct (e >? Timeout cfg); [exact I|].
  destruct (a + 1 >? MaxAttempts cfg); [exact I|].
  destruct (ctx_done env e); [exact I|].
  destruct (env_lookup env k) as [st|err] eqn:Hk.
  - destruct (String.eqb (ts_Status st) TaskStatusSucceeded); [exact I|].
    destruct (String.eqb (ts_Status st) TaskStatusFailed); [exact I|].
    destruct (String.eqb (ts_Status st) TaskStatusCanceled); [exact I|].
    match goal with |- context [poll_loop cfg env fuel ?a' ?i' ?e' ?k'] =>
      specialize (IH a' i' e' k'); destruct (poll_loop cfg env fuel a' i' e' k') as [o tr] end.
    simpl in *. auto.
  - match goal with |- context [poll_loop cfg env fuel ?a' ?i' ?e' ?k'] =>
      specialize (IH a' i' e' k'); destruct (poll_loop cfg env fuel a' i' e' k') as [o tr] end.
    simpl in *. auto.
Qed.

(** C8, as stated, fails: after a failed lookup the loop sleeps but does
    not grow the interval, so the second sleep is again 2 s instead of
    3 s. *)
Lemma backoff_skipped_after_failed_lookup :
  snd (WaitForTaskCompletion (Some DefaultPollingConfig) flaky_env) =
    [PLookup (LookupErr (NewNetworkError "HTTP request failed" None)); PSleep (2 * second);
     PLookup (LookupOk (running_reply "t")); PSleep (2 * second);
     PLookup (LookupOk (status_reply "t" TaskStatusSucceeded None))] /\
  ~ backoff_as_specified DefaultPollingConfig (InitialInterval DefaultPollingConfig)
      (snd (WaitForTaskCompletion (Some DefaultPollingConfig) flaky_env)).
Proof.
  split; [vm_compute; reflexivity|].
  vm_compute. intros [_ [H _]]. discriminate H.
Qed.

(** C8, amended. Sleeps happen only right after a lookup and last the
    current interval, which starts at [InitialInterval]; after a
    successful non-terminal lookup the interval becomes
    [time.Duration(float64(interval) * 1.5)] capped at [MaxInterval];
    after a failed lookup it stays unchanged. The schedule depends only on
    the lookup replies, not on timing (no jitter). *)
Theorem WaitForTaskCompletion_backoff (cfg : PollingConfig) (env : PollEnv) :
  backoff_as_coded cfg (InitialInterval cfg) (snd (WaitForTaskCompletion (Some cfg) env)).
Proof. apply poll_loop_backoff. Qed.

(* ------------------------------------------------------------------ *)
(** ** The metering payload *)

Lemma merge_absent_lookup (p m : gmap string value) (k : string) :
  merge_absent p m !! k = orelse (p !! k) (m !! k).
Proof.
  unfold merge_absent. revert k.
  apply (map_fold_weak_ind (fun r m => forall k, r !! k = orelse (p !! k) (m !! k))).
  - intros k. rewrite lookup_empty. by destruct (p !! k).
  - intros i x m0 r Hi IH k.
    pose proof (IH i) as IHi. rewrite Hi in IHi.
    destruct (r !! i) as [v|] eqn:Hri.
    + rewrite IH. destruct (decide (k = i)) as [->|Hne].
      * rewrite lookup_insert_eq, Hi. destruct (p !! i); simpl in *; congruence.
      * by rewrite lookup_insert_ne by congruence.
    + destruct (decide (k = i)) as [->|Hne].
      * rewrite !lookup_insert_eq. destruct (p !! i); simpl in *; congruence.
      * rewrite !lookup_insert_ne by congruence. apply IH.
Qed.

Lemma orelse_assoc {A} (x y z : option A) : orelse (orelse x y) z = orelse x (orelse y z).
Proof. by destruct x. Qed.

Lemma set_entry_lookup (p : gmap string value) (e : string * option value) (k : string) :
  set_entry p e !! k = orelse (set_entry ∅ e !! k) (p !! k).
Proof.
  destruct e as [key [v|]]; unfold set_entry; simpl.
  - destruct (decide (key = k)) as [->|Hne].
    + by rewrite !lookup_insert_eq.
    + rewrite !lookup_insert_ne by done. by rewrite lookup_empty.
  - by rewrite lookup_empty.
Qed.

Lemma fold_set_entry_lookup (l : list (string * option value)) :
  forall (p : gmap string value) k,
  fold_left set_entry l p !! k = orelse (fold_left set_entry l ∅ !! k) (p !! k).
Proof.
  induction l as [|e l IH]; intros p k; simpl.
  - by rewrite lookup_empty.
  - rewrite (IH (set_entry p e)), (IH (set_entry ∅ e)), set_entry_lookup.
    by rewrite orelse_assoc.
Qed.

Lemma fold_set_entry_keys (l : list (string * option value)) :
  forall k v, fold_left set_entry l ∅ !! k = Some v -> In k (map fst l).
Proof.
  intros k v. rewrite <- (app_nil_r l) at 1.
  assert (Hgen : forall (l' : list (string * option value)) (p : gmap string value),
            fold_left set_entry l' p !! k = Some v -> p !! k = Some v \/ In k (map fst l')).
  { induction l' as [|e l' IH]; intros p H; simpl in *; [auto|].
    destruct (IH _ H) as [H'|H']; [|auto].
    destruct e as [key [w|]]; unfold set_entry in H'; simpl in H'; [|auto].
    destruct (decide (key = k)) as [->|Hne]; [auto|].
    rewrite lookup_insert_ne in H' by done. auto. }
  rewrite app_nil_r. intros H. destruct (Hgen l ∅ H) as [H'|H']; [|exact H'].
  by rewrite lookup_empty in H'.
Qed.

Lemma caller_fields_not_computed (F : Z -> string) (now : Z) (r : VideoGenerationResult)
    (md : UsageMetadata) (k : string) (v : value) :
  caller_fields md !! k = Some v -> computed_fields F now r !! k = None.
Proof.
  intros H. apply fold_set_entry_keys in H. simpl in H.
  destruct r as [id st outs dur model err fc meta].
  repeat (destruct H as [<-|H]);
    try contradiction; destruct err, fc; vm_compute; reflexivity.
Qed.

Lemma add_caller_fields_lookup (md : UsageMetadata) (p : gmap string value) (k : string) :
  add_caller_fields md p !! k = orelse (caller_fields md !! k) (p !! k).
Proof. apply fold_set_entry_lookup. Qed.

Lemma payload_lookup_none (F : Z -> string) (now : Z) (r : VideoGenerationResult) (k : string) :
  buildMeteringPayload F now r None !! k =
  orelse (computed_fields F now r !! k) (vr_Metadata r !! k).
Proof. unfold buildMeteringPayload. apply merge_absent_lookup. Qed.

Lemma payload_lookup_some (F : Z -> string) (now : Z)
    (r : VideoGenerationResult) (md : UsageMetadata) (k : string) :
  buildMeteringPayload F now r (Some md) !! k =
  orelse (computed_fields F now r !! k)
    (orelse (caller_fields md !! k)
       (orelse (vr_Metadata r !! k) (Custom md !! k))).
Proof.
  unfold buildMeteringPayload.
  rewrite merge_absent_lookup, add_caller_fields_lookup, merge_absent_lookup.
  destruct (caller_fields md !! k) as [v|] eqn:Hc.
  - rewrite (caller_fields_not_computed F now r md k v Hc). reflexivity.
  - by destruct (computed_fields F now r !! k).
Qed.

(** C2, as stated, fails: a result-metadata entry is overwritten by the
    caller-supplied identification field with the same key. *)
Lemma caller_field_overwrites_result_metadata :
  let r := sample_result TaskStatusSucceeded None
             (<["organizationId" := VString "org-from-result"]> ∅) in
  let md := with_organization "org-from-caller" empty_usage_metadata in
  vr_Metadata r !! "organizationId" = Some (VString "org-from-result") /\
  buildMeteringPayload fixed_clock 0 r (Some md) !! "organizationId" =
    Some (VString "org-from-caller").
Proof. vm_compute. split; reflexivity. Qed.

(** C2, amended. Every key of the payload takes its value from the first
    source that has it, in the order: fixed computed fields, then the
    caller-supplied identification fields of [UsageMetadata], then the
    result metadata, then the [Custom] map. So the fixed fields are never
    overwritten, custom entries never overwrite anything, and a
    caller-supplied field wins over a result-metadata entry with the same
    key. *)
Theorem buildMeteringPayload_precedence (F : Z -> string) (now : Z)
    (r : VideoGenerationResult) (md : UsageMetadata) (k : string) :
  buildMeteringPayload F now r (Some md) !! k =
  orelse (computed_fields F now r !! k)
    (orelse (caller_fields md !! k)
       (orelse (vr_Metadata r !! k) (Custom md !! k))).
Proof. apply payload_lookup_some. Qed.

Lemma computed_fields_durationSeconds (F : Z -> string) (now : Z) (r : VideoGenerationResult) :
  computed_fields F now r !! "durationSeconds" = Some (VFloat (video_duration_seconds (vr_Metadata r))).
Proof.
  destruct r as [id st outs dur model err fc meta].
  destruct err, fc; vm_compute; reflexivity.
Qed.

Lemma computed_fields_stopReason (F : Z -> string) (now : Z) (r : VideoGenerationResult) :
  computed_fields F now r !! "stopReason" =
  Some (VString (match vr_Error r with Some _ => "ERROR" | None => stop_reason (vr_Status r) end)).
Proof.
  destruct r as [id st outs dur model err fc meta].
  destruct err, fc; vm_compute; reflexivity.
Qed.

Lemma payload_fixed_key (F : Z -> string) (now : Z) (r : VideoGenerationResult)
    (md : option UsageMetadata) (k : string) (v : value) :
  computed_fields F now r !! k = Some v -> buildMeteringPayload F now r md !! k = Some v.
Proof.
  intros H. destruct md as [md|].
  - rewrite payload_lookup_some, H. reflexivity.
  - rewrite payload_lookup_none, H. reflexivity.
Qed.

(** C4, as stated, fails: a duration supplied as an integer under
    ["durationSeconds"] is not recognised and the fallback 5.0 is billed. *)
Lemma integer_durationSeconds_ignored :
  let r := sample_result TaskStatusSucceeded None (<["durationSeconds" := VInt 10]> ∅) in
  buildMeteringPayload fixed_clock 0 r None !! "durationSeconds" = Some (VFloat float64_5) /\
  float64_5 <> float64_of_int 10.
Proof. vm_compute. split; [reflexivity | discriminate]. Qed.

(** C4, amended. The payload always carries ["durationSeconds"] as a
    float64: [float64(d)] when the result metadata holds an [int] [d]
    under ["duration"], [d] when it holds a [float64] there, otherwise
    the [float64] stored under ["durationSeconds"], and 5.0 when none of
    these is present. *)
Theorem payload_durationSeconds (F : Z -> string) (now : Z) (r : VideoGenerationResult)
    (md : option UsageMetadata) :
  buildMeteringPayload F now r md !! "durationSeconds" =
  Some (VFloat
    (match vr_Metadata r !! "duration" with
     | Some (VInt d) => float64_of_int d
     | Some (VFloat d) => d
     | _ =>
         match vr_Metadata r !! "durationSeconds" with
         | Some (VFloat d) => d
         | _ => float64_5
         end
     end)).
Proof. apply payload_fixed_key, computed_fields_durationSeconds. Qed.

(** C6, as stated, fails: a CANCELED result that carries an error
    message is reported with stop reason ERROR. *)
Lemma canceled_with_error_reports_error :
  buildMeteringPayload fixed_clock 0
    (sample_result TaskStatusCanceled (Some "user aborted") ∅) None !! "stopReason" =
  Some (VString "ERROR").
Proof. vm_compute. reflexivity. Qed.

(** C6, amended. When the result carries no error message, the stop
    reason is END for SUCCEEDED, ERROR for FAILED and CANCELLED for
    CANCELED (END for any other status); when it carries an error message
    the stop reason is ERROR whatever the status. *)
Theorem payload_stopReason (F : Z -> string) (now : Z) (r : VideoGenerationResult)
    (md : option UsageMetadata) :
  (vr_Error r = None ->
     (vr_Status r = TaskStatusSucceeded ->
        buildMeteringPayload F now r md !! "stopReason" = Some (VString "END")) /\
     (vr_Status r = TaskStatusFailed ->
        buildMeteringPayload F now r md !! "stopReason" = Some (VString "ERROR")) /\
     (vr_Status r = TaskStatusCanceled ->
        buildMeteringPayload F now r md !! "stopReason" = Some (VString "CANCELLED")) /\
     (vr_Status r <> TaskStatusSucceeded -> vr_Status r <> TaskStatusFailed ->
      vr_Status r <> TaskStatusCanceled ->
        buildMeteringPayload F now r md !! "stopReason" = Some (VString "END"))) /\
  (vr_Error r <> None ->
     buildMeteringPayload F now r md !! "stopReason" = Some (VString "ERROR")).
Proof.
  split.
  - intros He. split; [|split; [|split]];
      [intros Hs; apply payload_fixed_key; rewrite computed_fields_stopReason, He, Hs; reflexivity ..|].
    intros _ Hf Hc. apply payload_fixed_key. rewrite computed_fields_stopReason, He.
    unfold stop_reason.
    destruct (String.eqb_spec (vr_Status r) TaskStatusFailed); [contradiction|].
    destruct (String.eqb_spec (vr_Status r) TaskStatusCanceled); [contradiction|reflexivity].
  - intros He. apply payload_fixed_key. rewrite computed_fields_stopReason.
    destruct (vr_Error r); [reflexivity | congruence].
Qed.

Lemma payload_stopReason_witness :
  buildMeteringPayload fixed_clock 0 (sample_result TaskStatusCanceled None ∅) None !! "stopReason"
    = Some (VString "CANCELLED") /\
  buildMeteringPayload fixed_clock 0 (sample_result TaskStatusSucceeded (Some "x") ∅) None
    !! "stopReason" = Some (VString "ERROR") /\
  buildMeteringPayload fixed_clock 0 (sample_result TaskStatusRunning None ∅) None !! "stopReason"
    = Some (VString "END").
Proof.
  split; [|split].
  - apply (proj1 (proj2 (proj2 (proj1 (payload_stopReason fixed_clock 0
             (sample_result TaskStatusCanceled None ∅) None) eq_refl))) eq_refl).
  - apply (proj2 (payload_stopReason fixed_clock 0
             (sample_result TaskStatusSucceeded (Some "x") ∅) None)). discriminate.
  - apply (proj2 (proj2 (proj2 (proj1 (payload_stopReason fixed_clock 0
             (sample_result TaskStatusRunning None ∅) None) eq_refl))));
      vm_compute; discriminate.
Defined.

(* ------------------------------------------------------------------ *)
(** ** The orchestrator *)

Lemma generate_success (env : CallEnv) (model : string) (meta : gmap string value)
    (md : option UsageMetadata) (r r' : ReveniumRunway) (res : VideoGenerationResult) :
  generate env model meta md r = ((Some res, None), r') ->
  vr_Metadata res = meta /\ r' = spawn_metering r (res, md).
Proof.
  unfold generate.
  destruct (create_reply env) as [t|err]; [|discriminate].
  destruct (fst (WaitForTaskCompletion _ _)) as [[st|] [err|]]; try discriminate.
  intros H. inversion H; subst. auto.
Qed.

Lemma requested_duration_no_billing_key (d : Z) :
  requested_duration_metadata d !! "duration" = None /\
  requested_duration_metadata d !! "durationSeconds" = None.
Proof.
  unfold requested_duration_metadata.
  split; rewrite lookup_insert_ne by done; apply lookup_empty.
Qed.

(** C9. Whenever [ImageToVideo] or [VideoToVideo] returns a result, the
    one dispatch unit it spawns meters that result, and the payload built
    for it bills the fallback 5.0 seconds whatever the requested
    duration: the requested duration is stored under
    ["requestedDuration"], a key [buildMeteringPayload] does not read. *)
Theorem orchestrator_bills_fallback_duration (env : CallEnv) (md : option UsageMetadata)
    (r : ReveniumRunway) :
  (forall req res r', ImageToVideo env req md r = ((Some res, None), r') ->
     rr_spawned r' = rr_spawned r ++ [(res, md)] /\
     forall F now, buildMeteringPayload F now res md !! "durationSeconds" = Some (VFloat float64_5)) /\
  (forall req res r', VideoToVideo env req md r = ((Some res, None), r') ->
     rr_spawned r' = rr_spawned r ++ [(res, md)] /\
     forall F now, buildMeteringPayload F now res md !! "durationSeconds" = Some (VFloat float64_5)).
Proof.
  split; intros req res r' H; apply generate_success in H as [Hm ->];
    (split; [reflexivity|]); intros F now;
    rewrite (payload_fixed_key F now res md _ _ (computed_fields_durationSeconds F now res)), Hm;
    unfold video_duration_seconds;
    match goal with |- context [requested_duration_metadata ?d] =>
      destruct (requested_duration_no_billing_key d) as [-> ->] end;
    reflexivity.
Qed.

Lemma orchestrator_bills_fallback_duration_witness :
  rr_spawned (spawn_metering sample_client (sample_i2v_result, None)) =
    rr_spawned sample_client ++ [(sample_i2v_result, None)] /\
  buildMeteringPayload fixed_clock 0 sample_i2v_result None !! "durationSeconds" =
    Some (VFloat float64_5).
Proof.
  destruct (proj1 (orchestrator_bills_fallback_duration (call_env TaskStatusSucceeded None)
                     None sample_client) sample_i2v sample_i2v_result
                     (spawn_metering sample_client (sample_i2v_result, None)))
    as [H1 H2].
  - vm_compute. reflexivity.
  - split; [exact H1 | apply H2].
Defined.

(** C1, on the code: a task that ends FAILED or CANCELED makes each
    generate operation return the poller's TaskError with no result, and
    no dispatch unit is spawned (the client state is unchanged), although
    the result-building and metering code handles those statuses. *)
Lemma terminal_failure_not_metered :
  ImageToVideo (call_env TaskStatusFailed (Some "content moderation")) sample_i2v None sample_client
    = ((None, Some (NewTaskError "task failed: content moderation" None)), sample_client) /\
  VideoToVideo (call_env TaskStatusFailed None) sample_v2v None sample_client
    = ((None, Some (NewTaskError "task failed: unknown error" None)), sample_client) /\
  UpscaleVideo (call_env TaskStatusCanceled None) sample_upscale None sample_client
    = ((None, Some (NewTaskError "task was canceled" None)), sample_client).
Proof. vm_compute. repeat split. Qed.

(* ------------------------------------------------------------------ *)
(** ** Metering delivery *)

Lemma attempts_of_app (t1 t2 : list MeterEvent) :
  attempts_of (t1 ++ t2) = (attempts_of t1 + attempts_of t2)%nat.
Proof. induction t1 as [|[] t1 IH]; simpl; auto. Qed.

Lemma retry_loop_attempts_bound (cfg : Config) (payload : gmap string value)
    (replies : nat -> MeterReply) :
  forall remaining attempt backoff lastErr,
  (attempts_of (snd (retry_loop cfg payload replies remaining attempt backoff lastErr))
     <= remaining)%nat.
Proof.
  induction remaining as [|remaining IH]; intros attempt backoff lastErr; simpl; [lia|].
  destruct (0 <? attempt)%nat;
    (destruct (sendMeteringRequest cfg payload (replies attempt)) as [err|];
     [|simpl; rewrite ?attempts_of_app; simpl; lia]);
    (destruct (IsValidationError err); [simpl; rewrite ?attempts_of_app; simpl; lia|]);
    match goal with |- context [retry_loop cfg payload replies remaining ?a ?b ?l] =>
      specialize (IH a b l); destruct (retry_loop cfg payload replies remaining a b l) end;
    simpl in *; rewrite ?attempts_of_app; simpl; lia.
Qed.

Section Delivery.

Variables (cfg : Config) (payload : gmap string value).
Hypothesis Hkey : ReveniumAPIKey cfg <> "".
Hypothesis Hjson : payload_marshals payload = true.

Lemma send_prelude (reply : MeterReply) :
  sendMeteringRequest cfg payload reply =
  match reply with
  | ReplyNetErr cause => Some (NewNetworkError "metering request failed" (Some cause))
  | ReplyStatus code body =>
      if (code <? 200) || (300 <=? code) then
        if (400 <=? code) && (code <? 500) then
          Some (NewValidationError ("metering API returned " +:+ pretty code +:+ ": " +:+ body) None)
        else
          Some (NewMeteringError "metering API error"
                  (Some (PlainError ("status " +:+ pretty code +:+ ": " +:+ body))))
      else None
  end.
Proof.
  unfold sendMeteringRequest. rewrite Hjson.
  destruct (String.eqb_spec (ReveniumAPIKey cfg) ""); [contradiction|reflexivity].
Qed.

Lemma send_retryable (reply : MeterReply) :
  retryable_failure reply ->
  exists err, sendMeteringRequest cfg payload reply = Some err /\ IsValidationError err = false.
Proof.
  rewrite send_prelude.
  intros [[cause ->] | [code [body [-> Hc]]]]; [eexists; split; reflexivity|].
  destruct (Z.ltb_spec code 200); destruct (Z.leb_spec 300 code); try lia.
  destruct (Z.leb_spec 400 code); destruct (Z.ltb_spec code 500); try lia; simpl;
    eexists; split; reflexivity.
Qed.

Lemma send_client_error (code : Z) (body : string) :
  400 <= code < 500 ->
  exists err, sendMeteringRequest cfg payload (ReplyStatus code body) = Some err /\
              IsValidationError err = true.
Proof.
  rewrite send_prelude. intros Hc.
  destruct (Z.ltb_spec code 200); destruct (Z.leb_spec 300 code); try lia.
  destruct (Z.leb_spec 400 code); destruct (Z.ltb_spec code 500); try lia; simpl;
    eexists; split; reflexivity.
Qed.

Lemma send_success (code : Z) (body : string) :
  200 <= code < 300 -> sendMeteringRequest cfg payload (ReplyStatus code body) = None.
Proof.
  rewrite send_prelude. intros Hc.
  destruct (Z.ltb_spec code 200); destruct (Z.leb_spec 300 code); try lia. reflexivity.
Qed.

End Delivery.

(** C5. [sendWithRetry] makes at most 3 attempts. With a configured key
    and a serialisable payload: a 4xx reply (after only retryable
    failures) ends the loop at once with a validation error; network
    failures and 5xx replies are retried, three of them in a row give a
    metering error wrapping the third failure; the replies 500, 500, 200
    give exactly 3 attempts (with the 100 ms and 200 ms backoffs) and
    success. *)
Theorem sendWithRetry_bounded_retries (cfg : Config) (payload : gmap string value)
    (replies : nat -> MeterReply) :
  (attempts_of (snd (sendWithRetry cfg payload replies)) <= 3)%nat /\
  (ReveniumAPIKey cfg <> "" -> payload_marshals payload = true ->
   (forall i code body, (i < 3)%nat ->
      (forall j, (j < i)%nat -> retryable_failure (replies j)) ->
      replies i = ReplyStatus code body -> 400 <= code < 500 ->
      attempts_of (snd (sendWithRetry cfg payload replies)) = S i /\
      exists err, fst (sendWithRetry cfg payload replies) = Some err /\
                  IsValidationError err = true) /\
   ((forall j, (j < 3)%nat -> retryable_failure (replies j)) ->
      attempts_of (snd (sendWithRetry cfg payload replies)) = 3%nat /\
      fst (sendWithRetry cfg payload replies) =
        Some (NewMeteringError "metering failed after retries"
                (sendMeteringRequest cfg payload (replies 2%nat)))) /\
   (forall body0 body1 body2,
      replies 0%nat = ReplyStatus 500 body0 -> replies 1%nat = ReplyStatus 500 body1 ->
      replies 2%nat = ReplyStatus 200 body2 ->
      sendWithRetry cfg payload replies =
        (None, [MAttempt 0; MSleep (100 * millisecond); MAttempt 1;
                MSleep (200 * millisecond); MAttempt 2]))).
Proof.
  split; [apply retry_loop_attempts_bound|].
  intros Hkey Hjson.
  assert (Hretry : forall j, retryable_failure (replies j) ->
            exists err, sendMeteringRequest cfg payload (replies j) = Some err /\
                        IsValidationError err = false)
    by (intros j; apply send_retryable; assumption).
  split; [|split].
  - intros i code body Hi Hprev Hr Hc.
    destruct (send_client_error cfg payload Hkey Hjson code body Hc) as [e [He Hv]].
    rewrite <- Hr in He.
    destruct i as [|[|[|i]]]; [| | |lia]; retry_step.
    + rewrite He. cbn. rewrite Hv. split; [reflexivity | eauto].
    + destruct (Hretry 0%nat (Hprev 0%nat ltac:(lia))) as [e0 [He0 Hv0]].
      rewrite He0. cbn. rewrite Hv0. retry_step.
      rewrite He. cbn. rewrite Hv. split; [reflexivity | eauto].
    + destruct (Hretry 0%nat (Hprev 0%nat ltac:(lia))) as [e0 [He0 Hv0]].
      destruct (Hretry 1%nat (Hprev 1%nat ltac:(lia))) as [e1 [He1 Hv1]].
      rewrite He0. cbn. rewrite Hv0. retry_step.
      rewrite He1. cbn. rewrite Hv1. retry_step.
      rewrite He. cbn. rewrite Hv. split; [reflexivity | eauto].
  - intros Hall.
    destruct (Hretry 0%nat (Hall 0%nat ltac:(lia))) as [e0 [He0 Hv0]].
    destruct (Hretry 1%nat (Hall 1%nat ltac:(lia))) as [e1 [He1 Hv1]].
    destruct (Hretry 2%nat (Hall 2%nat ltac:(lia))) as [e2 [He2 Hv2]].
    retry_step. rewrite He0. cbn. rewrite Hv0. retry_step.
    rewrite He1. cbn. rewrite Hv1. retry_step.
    rewrite He2. cbn. rewrite Hv2. cbn. split; reflexivity.
  - intros b0 b1 b2 H0 H1 H2.
    pose proof (send_retryable cfg payload Hkey Hjson (replies 0%nat)) as R0.
    pose proof (send_retryable cfg payload Hkey Hjson (replies 1%nat)) as R1.
    destruct R0 as [e0 [He0 Hv0]]; [right; eauto with lia|].
    destruct R1 as [e1 [He1 Hv1]]; [right; eauto with lia|].
    pose proof (send_success cfg payload Hkey Hjson 200 b2 ltac:(lia)) as He2.
    rewrite <- H2 in He2.
    retry_step. rewrite He0. cbn. rewrite Hv0. retry_step.
    rewrite He1. cbn. rewrite Hv1. retry_step.
    rewrite He2. reflexivity.
Qed.

Lemma sendWithRetry_bounded_retries_witness :
  sendWithRetry good_cfg ∅ (replies_of [500; 500; 200]) =
    (None, [MAttempt 0; MSleep (100 * millisecond); MAttempt 1;
            MSleep (200 * millisecond); MAttempt 2]) /\
  attempts_of (snd (sendWithRetry good_cfg ∅ (replies_of [400]))) = 1%nat.
Proof.
  destruct (proj2 (sendWithRetry_bounded_retries good_cfg ∅ (replies_of [500; 500; 200])))
    as [_ [_ H]]; [vm_compute; discriminate | reflexivity |].
  destruct (proj2 (sendWithRetry_bounded_retries good_cfg ∅ (replies_of [400])))
    as [H4 _]; [vm_compute; discriminate | reflexivity |].
  split.
  - apply (H "" "" ""); reflexivity.
  - apply (proj1 (H4 0%nat 400 "" ltac:(lia) ltac:(intros; lia) eq_refl ltac:(lia))).
Defined.

(* ------------------------------------------------------------------ *)
(** ** The global client *)

(** C10. After a successful [Initialize], every later [Initialize], with
    any options and any environment, returns nil and leaves the global
    client and the initialized flag as they are. *)
Theorem Initialize_idempotent (opts : list Option) (env : Environ) (g g' : GlobalState) :
  Initialize opts env g = (None, g') ->
  initialized g' = true /\
  forall (opts' : list Option) (env' : Environ), Initialize opts' env' g' = (None, g').
Proof.
  unfold Initialize. destruct (initialized g) eqn:Hg.
  - intros H. inversion H; subst. split; [exact Hg|]. intros. rewrite Hg. reflexivity.
  - destruct (Validate _); intros H; inversion H; subst. split; [reflexivity|].
    intros. reflexivity.
Qed.

Lemma Initialize_idempotent_witness :
  Initialize [WithRunwayAPIKey "other"; WithReveniumAPIKey "bad"] ∅ keyed_global =
    (None, keyed_global).
Proof.
  apply (proj2 (Initialize_idempotent [] keyed_environ fresh_global keyed_global
                  ltac:(vm_compute; reflexivity))).
Defined.

(* ================================================================== *)
(** * Further properties of the code *)

Lemma poll_loop_outcome (cfg : PollingConfig) (env : PollEnv) :
  forall fuel a i e k,
  match poll_loop cfg env fuel a i e k with
  | ((Some st, None), tr) =>
      ts_Status st = TaskStatusSucceeded /\ last tr = Some (PLookup (LookupOk st))
  | ((Some st, Some err), tr) =>
      (ts_Status st = TaskStatusFailed \/ ts_Status st = TaskStatusCanceled) /\
      IsTaskError err = true /\ last tr = Some (PLookup (LookupOk st))
  | ((None, Some err), _) => IsTaskError err = true \/ err = ContextCanceled
  | ((None, None), _) => False
  end.
Proof.
  induction fuel as [|fuel IH]; intros a i e k; simpl; [auto|].
  destruct (e >? Timeout cfg); [auto|].
  destruct (a + 1 >? MaxAttempts cfg); [auto|].
  destruct (ctx_done env e); [auto|].
  destruct (env_lookup env k) as [st|err0] eqn:Hk.
  - destruct (String.eqb_spec (ts_Status st) TaskStatusSucceeded); [auto|].
    destruct (String.eqb_spec (ts_Status st) TaskStatusFailed); [auto|].
    destruct (String.eqb_spec (ts_Status st) TaskStatusCanceled); [auto|].
    match goal with |- context [poll_loop cfg env fuel ?a' ?i' ?e' ?k'] =>
      specialize (IH a' i' e' k'); destruct (poll_loop cfg env fuel a' i' e' k') as [[[st'|] [err'|]] tr] end;
    simpl in *; auto;
    (destruct tr; [simpl in *; intuition discriminate|]); simpl in *; auto.
  - match goal with |- context [poll_loop cfg env fuel ?a' ?i' ?e' ?k'] =>
      specialize (IH a' i' e' k'); destruct (poll_loop cfg env fuel a' i' e' k') as [[[st'|] [err'|]] tr] end;
    simpl in *; auto;
    (destruct tr; [simpl in *; intuition discriminate|]); simpl in *; auto.
Qed.

Lemma backoff_sleep_bound (cfg : PollingConfig) (B : Z) (HB : MaxInterval cfg <= B) :
  forall tr i, backoff_as_coded cfg i tr -> i <= B ->
  Forall (sleep_at_most B) tr /\ total_sleep tr <= Z.of_nat (lookups tr) * Z.max 0 B.
Proof.
  intros tr. induction tr as [tr IH] using (induction_ltof1 _ (@length _)).
  intros i Hb Hi.
  destruct tr as [|[r|d] [|[r'|d'] tr]]; simpl in Hb; try contradiction.
  - split; [constructor|simpl; lia].
  - split; [repeat constructor|simpl; lia].
  - destruct Hb as [-> Hb].
    destruct (IH tr ltac:(unfold ltof; simpl; lia)
                (match r with LookupErr _ => i | LookupOk _ => next_interval cfg i end) Hb)
      as [Hf Ht].
    { destruct r; [pose proof (next_interval_le_max cfg i); lia | lia]. }
    split; [repeat constructor; simpl; auto|].
    cbn [total_sleep lookups]. unfold slept. rewrite Nat2Z.inj_succ. lia.
Qed.

Lemma lookups_le_to_nat (cfg : PollingConfig) (env : PollEnv) :
  (lookups (snd (WaitForTaskCompletion (Some cfg) env)) <= Z.to_nat (MaxAttempts cfg))%nat.
Proof.
  pose proof (poll_loop_lookups_bound cfg env (S (Z.to_nat (MaxAttempts cfg))) 0
                (InitialInterval cfg) (env_start env) 0) as H.
  rewrite Z.sub_0_r in H. exact H.
Qed.

(** X2. For any polling configuration, [WaitForTaskCompletion] performs at
    most [MaxAttempts] lookups. Every sleep lasts at most the larger of the
    initial and the maximum interval. The total time slept is at most
    [MaxAttempts] times that bound. *)
Theorem WaitForTaskCompletion_resource_bounds (cfg : PollingConfig) (env : PollEnv) :
  let tr := snd (WaitForTaskCompletion (Some cfg) env) in
  let B := Z.max (InitialInterval cfg) (MaxInterval cfg) in
  (lookups tr <= Z.to_nat (MaxAttempts cfg))%nat /\
  Forall (sleep_at_most B) tr /\
  total_sleep tr <= Z.max 0 (MaxAttempts cfg) * Z.max 0 B.
Proof.
  intros tr B.
  pose proof (lookups_le_to_nat cfg env) as Hl. fold tr in Hl.
  destruct (backoff_sleep_bound cfg B ltac:(lia) tr (InitialInterval cfg)
              (poll_loop_backoff cfg env _ _ _ _ _) ltac:(lia)) as [Hf Ht].
  split; [exact Hl|]. split; [exact Hf|].
  assert (Z.of_nat (lookups tr) <= Z.max 0 (MaxAttempts cfg)).
  { apply Nat2Z.inj_le in Hl.
    destruct (Z.le_gt_cases 0 (MaxAttempts cfg)).
    - rewrite Z2Nat.id in Hl by lia. lia.
    - rewrite (Z2Nat.nonpos (MaxAttempts cfg)) in Hl by lia. simpl in Hl. lia. }
  nia.
Qed.

Lemma generate_contract (env : CallEnv) (model : string) (meta : gmap string value)
    (md : option UsageMetadata) (r : ReveniumRunway) :
  call_contract env md model r (generate env model meta md r) /\
  forall res e r', generate env model meta md r = ((Some res, e), r') -> vr_Metadata res = meta.
Proof.
  unfold generate.
  destruct (create_reply env) as [t|err] eqn:Hc; [|split; [simpl; split; congruence | discriminate]].
  pose proof (poll_loop_outcome DefaultPollingConfig (poll_env env)
                (S (Z.to_nat (MaxAttempts DefaultPollingConfig))) 0
                (InitialInterval DefaultPollingConfig) (env_start (poll_env env)) 0) as H.
  change (poll_loop DefaultPollingConfig (poll_env env)
            (S (Z.to_nat (MaxAttempts DefaultPollingConfig))) 0
            (InitialInterval DefaultPollingConfig) (env_start (poll_env env)) 0)
    with (WaitForTaskCompletion (Some DefaultPollingConfig) (poll_env env)) in H.
  destruct (WaitForTaskCompletion (Some DefaultPollingConfig) (poll_env env))
    as [[[st|] [err|]] tr]; simpl in *.
  - split; [split; congruence | discriminate].
  - destruct H as [Hs _]. split.
    + repeat split; auto. eexists; eauto.
    + intros res e r' [= <- _ _]. reflexivity.
  - split; [split; congruence | discriminate].
  - contradiction.
Qed.

(** X3. [ImageToVideo], [VideoToVideo] and [UpscaleVideo] either return a
    SUCCEEDED result with no error, or no result and an error. A result
    carries the created task's ID and the requested model, or the default
    model when the request's is empty, and spawns exactly one metering
    dispatch. A failure leaves the client unchanged. *)
Theorem generate_operations_contract (env : CallEnv) (md : option UsageMetadata) (r : ReveniumRunway) :
  (forall req, call_contract env md
     (if String.eqb (i2v_Model req) "" then "gen3a_turbo" else i2v_Model req) r
     (ImageToVideo env req md r)) /\
  (forall req, call_contract env md
     (if String.eqb (v2v_Model req) "" then "gen3a_turbo" else v2v_Model req) r
     (VideoToVideo env req md r)) /\
  (forall req, call_contract env md
     (if String.eqb (up_Model req) "" then "upscale" else up_Model req) r
     (UpscaleVideo env req md r)).
Proof. repeat split; intros req; apply generate_contract. Qed.

(** X4. A result returned by [UpscaleVideo] has empty metadata, so its
    metering payload always bills the fallback duration 5.0. *)
Theorem UpscaleVideo_bills_fallback (env : CallEnv) (req : VideoUpscaleRequest)
    (md : option UsageMetadata) (r r' : ReveniumRunway) (res : VideoGenerationResult) (e : option error) :
  UpscaleVideo env req md r = ((Some res, e), r') ->
  vr_Metadata res = ∅ /\
  forall F now, buildMeteringPayload F now res md !! "durationSeconds" = Some (VFloat float64_5).
Proof.
  intros H. apply (proj2 (generate_contract env _ ∅ md r)) in H.
  split; [exact H|]. intros F now.
  apply payload_fixed_key. rewrite computed_fields_durationSeconds, H. reflexivity.
Qed.

Lemma UpscaleVideo_bills_fallback_witness :
  vr_Metadata (default sample_i2v_result (fst (fst (UpscaleVideo upscale_ok_env sample_upscale None sample_client)))) = ∅ /\
  buildMeteringPayload fixed_clock 0
    (default sample_i2v_result (fst (fst (UpscaleVideo upscale_ok_env sample_upscale None sample_client)))) None
    !! "durationSeconds" = Some (VFloat float64_5).
Proof.
  destruct (UpscaleVideo_bills_fallback upscale_ok_env sample_upscale None sample_client
              (snd (UpscaleVideo upscale_ok_env sample_upscale None sample_client))
              (default sample_i2v_result (fst (fst (UpscaleVideo upscale_ok_env sample_upscale None sample_client))))
              None) as [H1 H2].
  - vm_compute. reflexivity.
  - split; [exact H1 | apply H2].
Defined.


Lemma caller_fields_no_error_keys (md : UsageMetadata) :
  caller_fields md !! "errorReason" = None /\ caller_fields md !! "failureCode" = None.
Proof.
  split; destruct (caller_fields md !! _) as [v|] eqn:H; auto;
    apply fold_set_entry_keys in H; simpl in H; repeat (destruct H as [H|H]; [discriminate|]); contradiction.
Qed.

Lemma computed_error_fields (F : Z -> string) (now : Z) (r : VideoGenerationResult) :
  computed_fields F now r !! "errorReason" = option_map VString (vr_Error r) /\
  computed_fields F now r !! "failureCode" = option_map VString (vr_FailureCode r).
Proof.
  destruct r as [id st outs dur model err fc meta].
  destruct err, fc; vm_compute; split; reflexivity.
Qed.

(** X6. In the payload, [errorReason] and [failureCode] come from the
    result's error and failure code when they are set. Otherwise they come
    from the result metadata, and then from the caller's custom map. *)
Theorem buildMeteringPayload_error_fields (F : Z -> string) (now : Z)
    (r : VideoGenerationResult) (md : option UsageMetadata) :
  let p := buildMeteringPayload F now r md in
  let passed k := orelse (vr_Metadata r !! k)
                    (match md with Some m => Custom m !! k | None => None end) in
  p !! "errorReason" =
    match vr_Error r with Some e => Some (VString e) | None => passed "errorReason" end /\
  p !! "failureCode" =
    match vr_FailureCode r with Some c => Some (VString c) | None => passed "failureCode" end.
Proof.
  intros p passed. unfold p, passed.
  destruct (computed_error_fields F now r) as [He Hf].
  destruct md as [m|].
  - destruct (caller_fields_no_error_keys m) as [Ce Cf].
    rewrite !payload_lookup_some, He, Hf, Ce, Cf.
    destruct (vr_Error r), (vr_FailureCode r); split; reflexivity.
  - rewrite !payload_lookup_none, He, Hf.
    destruct (vr_Error r), (vr_FailureCode r); simpl; split; try reflexivity;
      match goal with |- ?x = orelse ?x None => by destruct x end.
Qed.

Lemma send_validation_from_4xx (cfg : Config) (p : gmap string value) (reply : MeterReply) (e : error) :
  sendMeteringRequest cfg p reply = Some e -> IsValidationError e = true ->
  exists code body, reply = ReplyStatus code body /\ 400 <= code < 500.
Proof.
  unfold sendMeteringRequest.
  destruct (String.eqb _ _); [intros [= <-]; discriminate|].
  destruct (negb _); [intros [= <-]; discriminate|].
  destruct reply as [cause|code body]; [intros [= <-]; discriminate|].
  destruct (_ || _); [|discriminate].
  destruct ((400 <=? code) && (code <? 500)) eqn:E; intros [= <-]; [|discriminate].
  intros _. exists code, body. split; [reflexivity|].
  apply andb_true_iff in E as [E1 E2]. apply Z.leb_le in E1. apply Z.ltb_lt in E2. lia.
Qed.

(** X7. [sendWithRetry] succeeds only when one of its attempts, the
    k-th with k < 3, succeeded after every earlier attempt failed with a
    retryable error; the attempts 0..k were then made, with the sleeps
    between them. Its error is either the validation error of the last
    attempt made, caused by a 4xx reply, or, after all three attempts and
    both sleeps, a metering error wrapping the third attempt's
    non-validation error. *)
Theorem sendWithRetry_error_kinds (cfg : Config) (p : gmap string value) (replies : nat -> MeterReply) :
  match sendWithRetry cfg p replies with
  | (None, tr) =>
      exists k, (k < 3)%nat /\ tr = take (2 * k + 1) full_retry_trace /\
        sendMeteringRequest cfg p (replies k) = None /\ failed_retryable cfg p replies k
  | (Some e, tr) =>
      (exists k code body, (k < 3)%nat /\ tr = take (2 * k + 1) full_retry_trace /\
         sendMeteringRequest cfg p (replies k) = Some e /\ IsValidationError e = true /\
         replies k = ReplyStatus code body /\ 400 <= code < 500 /\
         failed_retryable cfg p replies k) \/
      (exists last, tr = full_retry_trace /\ failed_retryable cfg p replies 3 /\
         sendMeteringRequest cfg p (replies 2%nat) = Some last /\
         e = NewMeteringError "metering failed after retries" (Some last))
  end.
Proof.
  unfold sendWithRetry. retry_step.
  destruct (sendMeteringRequest cfg p (replies 0%nat)) as [e0|] eqn:H0.
  2:{ cbn. exists 0%nat. repeat split; auto; try lia. intros j Hj. lia. }
  destruct (IsValidationError e0) eqn:V0.
  { cbn. left. destruct (send_validation_from_4xx _ _ _ _ H0 V0) as (c & b & ? & ?).
    exists 0%nat, c, b. repeat split; auto; try lia. intros j Hj. lia. }
  retry_step.
  destruct (sendMeteringRequest cfg p (replies 1%nat)) as [e1|] eqn:H1.
  2:{ cbn. exists 1%nat. repeat split; auto; try lia.
      intros j Hj. destruct j as [|j]; [eauto|lia]. }
  destruct (IsValidationError e1) eqn:V1.
  { cbn. left. destruct (send_validation_from_4xx _ _ _ _ H1 V1) as (c & b & ? & ?).
    exists 1%nat, c, b. repeat split; auto; try lia.
    intros j Hj. destruct j as [|j]; [eauto|lia]. }
  retry_step.
  destruct (sendMeteringRequest cfg p (replies 2%nat)) as [e2|] eqn:H2.
  2:{ cbn. exists 2%nat. repeat split; auto; try lia.
      intros j Hj. destruct j as [|[|j]]; [eauto|eauto|lia]. }
  destruct (IsValidationError e2) eqn:V2.
  { cbn. left. destruct (send_validation_from_4xx _ _ _ _ H2 V2) as (c & b & ? & ?).
    exists 2%nat, c, b. repeat split; auto; try lia.
    intros j Hj. destruct j as [|[|j]]; [eauto|eauto|lia]. }
  cbn. right. exists e2. repeat split; auto; try lia.
  intros j Hj. destruct j as [|[|[|j]]]; [eauto|eauto|eauto|lia].
Qed.

Lemma presend_failure (cfg : Config) (p : gmap string value) :
  ReveniumAPIKey cfg = "" \/ payload_marshals p = false ->
  exists e0, IsValidationError e0 = false /\ forall reply, sendMeteringRequest cfg p reply = Some e0.
Proof.
  intros H. unfold sendMeteringRequest.
  destruct (String.eqb_spec (ReveniumAPIKey cfg) "").
  - eexists. split; [|intros; reflexivity]. reflexivity.
  - destruct H as [H|H]; [contradiction|]. rewrite H.
    eexists. split; [|intros; reflexivity]. reflexivity.
Qed.

Lemma presend_failure_retries (cfg : Config) (p : gmap string value) (replies : nat -> MeterReply) (e0 : error) :
  IsValidationError e0 = false -> (forall reply, sendMeteringRequest cfg p reply = Some e0) ->
  sendWithRetry cfg p replies =
    (Some (NewMeteringError "metering failed after retries" (Some e0)), full_retry_trace).
Proof.
  intros V H. unfold sendWithRetry. retry_step.
  rewrite H. cbn. rewrite V. retry_step.
  rewrite H. cbn. rewrite V. retry_step.
  rewrite H. cbn. rewrite V. reflexivity.
Qed.

(** X8. With an empty Revenium API key or a payload that cannot be
    marshalled, every attempt of [sendWithRetry] fails the same way before
    any request is sent. The call still makes three attempts and two
    sleeps, then returns the retry-exhausted metering error. *)
Theorem sendWithRetry_presend_failure (cfg : Config) (p : gmap string value) (replies : nat -> MeterReply) :
  ReveniumAPIKey cfg = "" \/ payload_marshals p = false ->
  exists e0, (forall reply, sendMeteringRequest cfg p reply = Some e0) /\
    sendWithRetry cfg p replies =
      (Some (NewMeteringError "metering failed after retries" (Some e0)), full_retry_trace).
Proof.
  intros H. destruct (presend_failure cfg p H) as [e0 [V He]].
  exists e0. split; [exact He|]. apply presend_failure_retries; assumption.
Qed.

Lemma sendWithRetry_presend_failure_witness :
  exists e0, (forall reply, sendMeteringRequest empty_config ∅ reply = Some e0) /\
    sendWithRetry empty_config ∅ (replies_of [200]) =
      (Some (NewMeteringError "metering failed after retries" (Some e0)), full_retry_trace).
Proof. apply sendWithRetry_presend_failure. left. reflexivity. Defined.

Lemma payload_marshals_lookup (p : gmap string value) (k : string) (v : value) :
  p !! k = Some v -> value_marshals v = false -> payload_marshals p = false.
Proof.
  intros Hk Hv. unfold payload_marshals. apply not_true_is_false. intros H.
  rewrite forallb_forall in H.
  assert (Hin : In (k, v) (map_to_list p)).
  { apply list_elem_of_In. by apply elem_of_map_to_list. }
  specialize (H (k, v) Hin). simpl in H. congruence.
Qed.

(** X9. A non-finite [duration] float in the result metadata makes the
    payload impossible to marshal. [SendVideoMetering] then retries three
    times without sending and ends with the retry-exhausted metering
    error. *)
Theorem SendVideoMetering_nonfinite_duration (F : Z -> string) (now : Z) (cfg : Config)
    (replies : nat -> MeterReply) (res : VideoGenerationResult) (md : option UsageMetadata) (f : float64) :
  vr_Metadata res !! "duration" = Some (VFloat f) -> float64_is_finite f = false ->
  exists e0,
    (forall reply, sendMeteringRequest cfg (buildMeteringPayload F now res md) reply = Some e0) /\
    SendVideoMetering F now cfg replies (res, md) =
      (Some (NewMeteringError "metering failed after retries" (Some e0)), full_retry_trace).
Proof.
  intros Hd Hf.
  assert (Hp : payload_marshals (buildMeteringPayload F now res md) = false).
  { apply (payload_marshals_lookup _ "durationSeconds" (VFloat f)); [|exact Hf].
    apply payload_fixed_key. rewrite computed_fields_durationSeconds.
    unfold video_duration_seconds. rewrite Hd. reflexivity. }
  destruct (presend_failure cfg _ (or_intror Hp)) as [e0 [V He]].
  exists e0. split; [exact He|]. unfold SendVideoMetering. cbn [fst snd].
  apply presend_failure_retries; assumption.
Qed.

Lemma SendVideoMetering_nonfinite_duration_witness :
  exists e0,
    (forall reply, sendMeteringRequest good_cfg (buildMeteringPayload fixed_clock 0 nan_result None) reply = Some e0) /\
    SendVideoMetering fixed_clock 0 good_cfg (replies_of [200]) (nan_result, None) =
      (Some (NewMeteringError "metering failed after retries" (Some e0)), full_retry_trace).
Proof. apply (SendVideoMetering_nonfinite_duration _ _ _ _ _ _ S754_nan); reflexivity. Defined.

(** X10. At most one of the [IsXError] predicates holds for an error.
    They see through errors that wrap another error, as [errors.As] does,
    and they ignore the cause wrapped by a [ReveniumError]. An error
    whose chain holds no [ReveniumError] satisfies none of them, which is
    the case of plain errors and of the context error. *)
Theorem error_type_predicates (e : error) :
  (length (filter (fun b => b = true) (type_checks e)) <= 1)%nat /\
  (forall t m c, type_checks (ReveniumError t m c) = type_checks (ReveniumError t m None) /\
                 IsReveniumError (ReveniumError t m c) = true) /\
  (forall msg, type_checks (WrappedError msg e) = type_checks e /\
               IsReveniumError (WrappedError msg e) = IsReveniumError e) /\
  (IsReveniumError e = false -> type_checks e = repeat false 7) /\
  (forall msg, IsReveniumError (PlainError msg) = false) /\ IsReveniumError ContextCanceled = false.
Proof.
  split; [|split; [intros; split; reflexivity|split; [intros; split; reflexivity|split; [|split; reflexivity]]]].
  - induction e as [t m c| |msg|msg inner IH]; [destruct t; vm_compute; lia|vm_compute; lia|vm_compute; lia|].
    exact IH.
  - induction e as [t m c| |msg|msg inner IH]; [discriminate|reflexivity|reflexivity|].
    exact IH.
Qed.

(** X11. [GetStatusCode] never returns 0. For an error built by a
    constructor, the code is a 4xx exactly for config, validation and auth
    errors, and a 5xx for every other type. *)
Theorem GetStatusCode_classes (e : ReveniumErrorObj) :
  GetStatusCode e <> 0 /\
  (forall t m c,
     let code := GetStatusCode (mk_error_obj t m c) in
     (400 <= code < 500 <-> t = ErrorTypeConfig \/ t = ErrorTypeValidation \/ t = ErrorTypeAuth) /\
     (500 <= code < 600 <-> ~ (t = ErrorTypeConfig \/ t = ErrorTypeValidation \/ t = ErrorTypeAuth))).
Proof.
  split.
  - unfold GetStatusCode. destruct (Z.eqb_spec (ro_StatusCode e) 0); simpl; [|lia].
    destruct (ro_Type e); lia.
  - intros t m c code. unfold code.
    destruct t; unfold GetStatusCode, mk_error_obj; simpl; split; split; intros H;
      solve [ lia | auto | exfalso; apply H; auto
            | destruct H as [H|[H|H]]; discriminate H
            | intros [H'|[H'|H']]; discriminate H' ].
Qed.

(** X12. [doRequest] returns a value only for a 2xx reply whose body
    decodes. Its errors never carry an explicit status code. A transport
    or body-read failure gives a network error (503), and any reply that
    was received gives a provider error (502). *)
Theorem doRequest_outcome (A : Type) (unm : string -> option (string * string * string))
    (dec : string -> A + error) (reply : HTTPReply) :
  match doRequest A unm dec reply with
  | inl a => exists code body, reply = HTTPResp code body /\ 200 <= code < 300 /\ dec body = inl a
  | inr e =>
      ro_StatusCode e = 0 /\
      ((ro_Type e = ErrorTypeNetwork /\ GetStatusCode e = 503 /\
        exists cause, reply = HTTPErr cause \/ reply = HTTPBodyErr cause) \/
       (ro_Type e = ErrorTypeProvider /\ GetStatusCode e = 502 /\
        exists code body, reply = HTTPResp code body))
  end.
Proof.
  destruct reply as [cause|cause|code body]; simpl.
  - split; [reflexivity|]. left. eauto.
  - split; [reflexivity|]. left. eauto.
  - destruct ((code <? 200) || (300 <=? code)) eqn:E.
    + destruct (unm body) as [[[ty msg] c]|];
        [destruct (negb (String.eqb msg ""))|]; simpl; (split; [reflexivity|]); right; eauto.
    + destruct (dec body) as [a|err] eqn:Hd; simpl.
      * exists code, body. split; [reflexivity|]. split; [|exact Hd].
        apply orb_false_iff in E as [E1 E2]. apply Z.ltb_ge in E1. apply Z.leb_gt in E2. lia.
      * split; [reflexivity|]. right. eauto.
Qed.

(** X13. A non-2xx reply whose body parses as an API error with a
    non-empty message gives a provider error. The error quotes the status
    code and the message, and its details hold exactly the API error's
    [code] and [type]. *)
Theorem doRequest_error_details (A : Type) (unm : string -> option (string * string * string))
    (dec : string -> A + error) (code : Z) (body ty msg c : string) :
  (code < 200 \/ 300 <= code) -> unm body = Some (ty, msg, c) -> msg <> "" ->
  exists e, doRequest A unm dec (HTTPResp code body) = inr e /\
    ro_Type e = ErrorTypeProvider /\
    ro_Message e = "Runway API error (" +:+ pretty code +:+ "): " +:+ msg /\
    GetDetails e !! "code" = Some (VString c) /\
    GetDetails e !! "type" = Some (VString ty) /\
    (forall k, k <> "code" -> k <> "type" -> GetDetails e !! k = None).
Proof.
  intros Hc Hu Hm. simpl.
  replace ((code <? 200) || (300 <=? code)) with true
    by (symmetry; apply orb_true_iff; destruct Hc; [left; apply Z.ltb_lt | right; apply Z.leb_le]; lia).
  rewrite Hu. destruct (String.eqb_spec msg ""); [contradiction|]. simpl.
  eexists. split; [reflexivity|]. unfold GetDetails; simpl.
  split; [reflexivity|]. split; [reflexivity|].
  split; [rewrite lookup_insert_ne by done; apply lookup_insert_eq|].
  split; [apply lookup_insert_eq|].
  intros k H1 H2. rewrite !lookup_insert_ne by congruence. apply lookup_empty.
Qed.

Lemma doRequest_error_details_witness :
  exists e, doRequest unit (fun _ => Some ("invalid_request", "bad prompt", "E42")) (fun _ => inl tt)
              (HTTPResp 400 "{}") = inr e /\
    ro_Type e = ErrorTypeProvider /\
    ro_Message e = "Runway API error (" +:+ pretty 400 +:+ "): " +:+ "bad prompt" /\
    GetDetails e !! "code" = Some (VString "E42") /\
    GetDetails e !! "type" = Some (VString "invalid_request") /\
    (forall k, k <> "code" -> k <> "type" -> GetDetails e !! k = None).
Proof. apply doRequest_error_details; [lia | reflexivity | discriminate]. Defined.

Lemma isValidAPIKeyFormat_spec (key : string) :
  isValidAPIKeyFormat key = true <-> exists rest, key = "hak_" +:+ rest.
Proof.
  unfold isValidAPIKeyFormat. split.
  - destruct key as [|a1 [|a2 [|a3 [|a4 rest]]]];
      cbn [String.length Nat.ltb Nat.leb String.substring]; try (intros H; discriminate H).
    intros H. apply String.eqb_eq in H. injection H as <- <- <- <-. exists rest. reflexivity.
  - intros [rest ->]. unfold String.app. destruct rest; reflexivity.
Qed.

Lemma Validate_spec (c : Config) :
  match Validate c with
  | None => keys_valid c
  | Some e => IsConfigError e = true /\ ~ keys_valid c
  end.
Proof.
  unfold Validate, keys_valid.
  destruct (String.eqb_spec (ReveniumAPIKey c) "") as [He|He].
  { split; [reflexivity|]. intros [[rest Hr] _]. rewrite He in Hr. destruct rest; discriminate. }
  destruct (isValidAPIKeyFormat (ReveniumAPIKey c)) eqn:Hv; simpl.
  - apply isValidAPIKeyFormat_spec in Hv.
    destruct (String.eqb_spec (RunwayAPIKey c) "") as [Hr|Hr].
    + split; [reflexivity|]. intros [_ H]. contradiction.
    + split; assumption.
  - split; [reflexivity|]. intros [Hk _]. apply isValidAPIKeyFormat_spec in Hk. congruence.
Qed.

(** X14. [NewReveniumRunway] rejects a nil config with a config error. It
    returns a fresh client (no pending dispatches) exactly when the
    Revenium key starts with "hak_" and the Runway key is non-empty;
    otherwise it returns a config error and no client. *)
Theorem NewReveniumRunway_spec (c : Config) :
  NewReveniumRunway None = (None, Some (NewConfigError "config cannot be nil" None)) /\
  match NewReveniumRunway (Some c) with
  | (Some cl, None) => cl = {| rr_config := c; rr_wg := 0; rr_spawned := [] |} /\ keys_valid c
  | (None, Some e) => IsConfigError e = true /\ ~ keys_valid c
  | _ => False
  end.
Proof.
  split; [reflexivity|]. simpl. pose proof (Validate_spec c) as H.
  destruct (Validate c); auto.
Qed.

Lemma list_ascii_app (a b : string) :
  String.list_ascii_of_string (a +:+ b) = String.list_ascii_of_string a ++ String.list_ascii_of_string b.
Proof. induction a as [|c a IH]; simpl; [reflexivity|]. by rewrite IH. Qed.

Lemma list_ascii_inj (a b : string) :
  String.list_ascii_of_string a = String.list_ascii_of_string b -> a = b.
Proof.
  intros H. rewrite <- (String.string_of_list_ascii_of_string a), <- (String.string_of_list_ascii_of_string b).
  by rewrite H.
Qed.

Lemma string_length_list (a : string) : String.length a = length (String.list_ascii_of_string a).
Proof. induction a; simpl; auto. Qed.

Lemma string_app_assoc (a b c : string) : (a +:+ b) +:+ c = a +:+ (b +:+ c).
Proof. apply list_ascii_inj. rewrite !list_ascii_app. symmetry; apply app_assoc. Qed.

Lemma substring_prefix (p q : string) : String.substring 0 (String.length p) (p +:+ q) = p.
Proof. induction p as [|c p IH]; simpl; [by destruct q|]. by rewrite IH. Qed.

Lemma substring_skip (p q : string) (m : nat) :
  String.substring (String.length p) m (p +:+ q) = String.substring 0 m q.
Proof. induction p as [|c p IH]; simpl; auto. Qed.

Lemma substring_all (q : string) : String.substring 0 (String.length q) q = q.
Proof. induction q as [|c q IH]; simpl; [reflexivity|]. by rewrite IH. Qed.

Lemma string_length_app (a b : string) : String.length (a +:+ b) = (String.length a + String.length b)%nat.
Proof. induction a; simpl; auto. Qed.

Lemma substring_split (s : string) (n m : nat) :
  (n + m = String.length s)%nat -> s = String.substring 0 n s +:+ String.substring n m s.
Proof.
  revert n. induction s as [|c s IH]; intros n H; simpl in H.
  - destruct n, m; simpl in *; try lia. reflexivity.
  - destruct n as [|n].
    + simpl in H. subst m. simpl. f_equal. by rewrite substring_all.
    + simpl. unfold String.app; fold String.app. f_equal. apply IH. lia.
Qed.

Lemma has_suffix_spec (suf s : string) : has_suffix suf s = true <-> exists p, s = p +:+ suf.
Proof.
  unfold has_suffix. rewrite andb_true_iff, Nat.leb_le, String.eqb_eq. split.
  - intros [Hl Hs]. exists (String.substring 0 (String.length s - String.length suf) s).
    rewrite (substring_split s (String.length s - String.length suf) (String.length suf)) at 1 by lia.
    by rewrite Hs.
  - intros [p ->]. rewrite string_length_app. split; [lia|].
    replace (String.length p + String.length suf - String.length suf)%nat with (String.length p) by lia.
    rewrite substring_skip. apply substring_all.
Qed.

Lemma has_suffix_app (p suf : string) : has_suffix suf (p +:+ suf) = true.
Proof. apply has_suffix_spec. eauto. Qed.

Lemma drop_suffix_app (p suf : string) : drop_suffix (String.length suf) (p +:+ suf) = p.
Proof.
  unfold drop_suffix. rewrite string_length_app.
  replace (String.length p + String.length suf - String.length suf)%nat with (String.length p) by lia.
  apply substring_prefix.
Qed.

Lemma has_suffix_mismatch (x1 x2 b y1 y2 : string) :
  String.length x2 = String.length y2 -> x2 <> y2 ->
  has_suffix (x1 +:+ x2) (b +:+ (y1 +:+ y2)) = false.
Proof.
  intros Hl Hne. apply not_true_is_false. intros H. apply has_suffix_spec in H as [p Hp].
  rewrite <- !string_app_assoc in Hp. apply (f_equal String.list_ascii_of_string) in Hp.
  rewrite !list_ascii_app in Hp. apply app_inj_2 in Hp as [_ Hp].
  - apply Hne. symmetry. by apply list_ascii_inj.
  - rewrite <- !string_length_list. congruence.
Qed.

Lemma has_suffix_mismatch_eq (suf y x1 x2 b y1 y2 : string) :
  suf = x1 +:+ x2 -> y = y1 +:+ y2 ->
  String.length x2 = String.length y2 -> x2 <> y2 ->
  has_suffix suf (b +:+ y) = false.
Proof. intros -> ->. apply has_suffix_mismatch. Qed.

Lemma has_suffix_cancel (x z b : string) :
  has_suffix (x +:+ z) (b +:+ z) = has_suffix x b.
Proof.
  destruct (has_suffix x b) eqn:E.
  - apply has_suffix_spec in E as [p ->]. apply has_suffix_spec. exists p. apply string_app_assoc.
  - apply not_true_is_false. intros H. apply has_suffix_spec in H as [p Hp].
    rewrite <- string_app_assoc in Hp. apply (f_equal String.list_ascii_of_string) in Hp.
    rewrite !list_ascii_app in Hp. apply app_inv_tail in Hp.
    rewrite <- list_ascii_app in Hp. apply list_ascii_inj in Hp. subst b. by rewrite has_suffix_app in E.
Qed.

Lemma has_suffix_cancel_eq (suf x z b : string) :
  suf = x +:+ z -> has_suffix suf (b +:+ z) = has_suffix x b.
Proof. intros ->. apply has_suffix_cancel. Qed.

Lemma string_app_nil_r (a : string) : a +:+ "" = a.
Proof. apply list_ascii_inj. rewrite list_ascii_app. apply app_nil_r. Qed.

Lemma has_suffix_longer (b : string) (x y : string) :
  has_suffix y b = false -> has_suffix (x +:+ y) b = false.
Proof.
  intros H. apply not_true_is_false. intros H'. apply has_suffix_spec in H' as [p ->].
  rewrite <- string_app_assoc, has_suffix_app in H. discriminate.
Qed.

Lemma strip_api_suffix_clean (b t : string) :
  clean_base b -> t ∈ ["/v2"; "/meter"; "/meter/v2"] ->
  has_suffix "/" (b +:+ t) = false /\ strip_api_suffix (b +:+ t) = b.
Proof.
  intros (Hne & H1 & H2 & H3) Ht.
  assert (H4 : has_suffix "/meter/v2" b = false) by exact (has_suffix_longer b "/meter" "/v2" H3).
  unfold strip_api_suffix.
  repeat (apply elem_of_cons in Ht as [->|Ht]); [..|by apply elem_of_nil in Ht].
  - rewrite (has_suffix_mismatch_eq _ _ "" "/" b "/v" "2") by (reflexivity || discriminate).
    rewrite (has_suffix_cancel_eq _ "/meter" "/v2" b) by reflexivity. rewrite H2.
    rewrite (has_suffix_mismatch_eq _ _ "/me" "ter" b "" "/v2") by (reflexivity || discriminate).
    rewrite (has_suffix_app b "/v2"). split; [reflexivity|]. exact (drop_suffix_app b "/v2").
  - rewrite (has_suffix_mismatch_eq _ _ "" "/" b "/mete" "r") by (reflexivity || discriminate).
    rewrite (has_suffix_mismatch_eq _ _ "/meter/v" "2" b "/mete" "r") by (reflexivity || discriminate).
    rewrite (has_suffix_app b "/meter"). split; [reflexivity|]. exact (drop_suffix_app b "/meter").
  - rewrite (has_suffix_mismatch_eq _ _ "" "/" b "/meter/v" "2") by (reflexivity || discriminate).
    rewrite (has_suffix_app b "/meter/v2"). split; [reflexivity|]. exact (drop_suffix_app b "/meter/v2").
Qed.

Lemma strip_api_suffix_base (b : string) :
  clean_base b -> strip_api_suffix b = b.
Proof.
  intros (Hne & H1 & H2 & H3).
  assert (H4 : has_suffix "/meter/v2" b = false) by exact (has_suffix_longer b "/meter" "/v2" H3).
  unfold strip_api_suffix. by rewrite H4, H2, H3.
Qed.

Lemma NormalizeReveniumBaseURL_strip (u : string) :
  u <> "" ->
  NormalizeReveniumBaseURL u =
  strip_api_suffix (if has_suffix "/" u then drop_suffix 1 u else u).
Proof.
  intros Hu. unfold NormalizeReveniumBaseURL.
  destruct (String.eqb_spec u ""); [contradiction|reflexivity].
Qed.

Lemma trim_one_slash (b s t : string) :
  s = t +:+ "/" ->
  (if has_suffix "/" (b +:+ s) then drop_suffix 1 (b +:+ s) else b +:+ s) = b +:+ t.
Proof.
  intros ->. rewrite <- string_app_assoc, has_suffix_app.
  exact (drop_suffix_app (b +:+ t) "/").
Qed.

(** X15. [NormalizeReveniumBaseURL] maps a base URL followed by any of the
    legacy endings "", "/", "/v2", "/v2/", "/meter", "/meter/", "/meter/v2"
    or "/meter/v2/" back to the base URL, when the base itself has none of
    these endings. The empty URL becomes the default endpoint. *)
Theorem NormalizeReveniumBaseURL_legacy_suffixes (b s : string) :
  clean_base b ->
  s ∈ [""; "/"; "/v2"; "/v2/"; "/meter"; "/meter/"; "/meter/v2"; "/meter/v2/"] ->
  NormalizeReveniumBaseURL (b +:+ s) = b /\ NormalizeReveniumBaseURL "" = "https://api.revenium.ai".
Proof.
  intros Hb Hs. split; [|reflexivity].
  assert (Hne : b +:+ s <> "") by (destruct Hb as [Hne _]; destruct b; [contradiction|discriminate]).
  rewrite (NormalizeReveniumBaseURL_strip _ Hne).
  pose proof Hb as (_ & H1 & _).
  repeat (apply elem_of_cons in Hs as [->|Hs]); [..|by apply elem_of_nil in Hs].
  - rewrite string_app_nil_r, H1. by apply strip_api_suffix_base.
  - rewrite (trim_one_slash b "/" "") by reflexivity.
    rewrite string_app_nil_r. by apply strip_api_suffix_base.
  - destruct (strip_api_suffix_clean b "/v2" Hb ltac:(set_solver)) as [-> ->]. reflexivity.
  - rewrite (trim_one_slash b "/v2/" "/v2") by reflexivity.
    by apply strip_api_suffix_clean; [|set_solver].
  - destruct (strip_api_suffix_clean b "/meter" Hb ltac:(set_solver)) as [-> ->]. reflexivity.
  - rewrite (trim_one_slash b "/meter/" "/meter") by reflexivity.
    by apply strip_api_suffix_clean; [|set_solver].
  - destruct (strip_api_suffix_clean b "/meter/v2" Hb ltac:(set_solver)) as [-> ->]. reflexivity.
  - rewrite (trim_one_slash b "/meter/v2/" "/meter/v2") by reflexivity.
    by apply strip_api_suffix_clean; [|set_solver].
Qed.

Lemma NormalizeReveniumBaseURL_legacy_suffixes_witness :
  clean_base "https://api.revenium.ai" /\
  NormalizeReveniumBaseURL ("https://api.revenium.ai" +:+ "/meter/v2/") = "https://api.revenium.ai" /\
  NormalizeReveniumBaseURL "" = "https://api.revenium.ai".
Proof.
  assert (Hc : clean_base "https://api.revenium.ai")
    by (split; [discriminate|vm_compute; repeat split]).
  split; [exact Hc|].
  apply (NormalizeReveniumBaseURL_legacy_suffixes "https://api.revenium.ai" "/meter/v2/" Hc).
  apply list_elem_of_In. simpl. do 7 right. left. reflexivity.
Defined.

(** X1. [WaitForTaskCompletion] never returns neither a status nor an error.
    A status with no error is SUCCEEDED and comes from the last lookup. A
    status with an error is FAILED or CANCELED, comes from the last lookup,
    and the error is a task error. No status means a task error or the
    context's cancellation. *)
Theorem WaitForTaskCompletion_outcome (pc : option PollingConfig) (env : PollEnv) :
  match WaitForTaskCompletion pc env with
  | ((Some st, None), tr) =>
      ts_Status st = TaskStatusSucceeded /\ last tr = Some (PLookup (LookupOk st))
  | ((Some st, Some err), tr) =>
      (ts_Status st = TaskStatusFailed \/ ts_Status st = TaskStatusCanceled) /\
      IsTaskError err = true /\ last tr = Some (PLookup (LookupOk st))
  | ((None, Some err), _) => IsTaskError err = true \/ err = ContextCanceled
  | ((None, None), _) => False
  end.
Proof. unfold WaitForTaskCompletion. apply poll_loop_outcome. Qed.

Lemma LoadFromEnv_overwrites (env : Environ) (c c' : Config) : LoadFromEnv env c = LoadFromEnv env c'.
Proof. reflexivity. Qed.

(** X16. Before initialization, [GetClient] fails with a config error.
    [Initialize] ignores its options and validates the configuration loaded
    from the environment. On failure the state is unchanged. On success
    the global client has that configuration and no pending dispatches;
    a [Reset] of that state leaves the middleware uninitialized, so that
    [GetClient] fails again, and a new [Initialize] in the same
    environment restores the same state. *)
Theorem global_client_lifecycle (opts : list Option) (env : Environ) (g : GlobalState) :
  initialized g = false ->
  GetClient g = (None, Some not_initialized_error) /\
  match Initialize opts env g with
  | (None, g') =>
      Validate (LoadFromEnv env empty_config) = None /\
      IsInitialized g' = true /\ GetClient g' = (Some (client_of env), None) /\
      IsInitialized (Reset g') = false /\
      GetClient (Reset g') = (None, Some not_initialized_error) /\
      Initialize opts env (Reset g') = (None, g')
  | (Some err, g') =>
      Validate (LoadFromEnv env empty_config) = Some err /\ g' = g /\
      GetClient g' = (None, Some not_initialized_error)
  end.
Proof.
  intros Hg. split; [unfold GetClient; rewrite Hg; reflexivity|].
  unfold Initialize. rewrite Hg.
  rewrite (LoadFromEnv_overwrites env _ empty_config).
  destruct (Validate (LoadFromEnv env empty_config)) eqn:Hv.
  - unfold GetClient. rewrite Hg. auto.
  - split; [reflexivity|]. unfold IsInitialized, GetClient, Reset. simpl.
    repeat split.
Qed.

Lemma global_client_lifecycle_witness :
  initialized g_empty = false /\
  Initialize [] good_env g_empty =
    (None, {| globalClient := Some (client_of good_env); initialized := true |}) /\
  (GetClient g_empty = (None, Some not_initialized_error) /\
   match Initialize [] good_env g_empty with
   | (None, g') =>
       Validate (LoadFromEnv good_env empty_config) = None /\
       IsInitialized g' = true /\ GetClient g' = (Some (client_of good_env), None) /\
       IsInitialized (Reset g') = false /\
       GetClient (Reset g') = (None, Some not_initialized_error) /\
       Initialize [] good_env (Reset g') = (None, g')
   | (Some err, g') =>
       Validate (LoadFromEnv good_env empty_config) = Some err /\ g' = g_empty /\
       GetClient g' = (None, Some not_initialized_error)
   end).
Proof.
  split; [reflexivity|]. split; [vm_compute; reflexivity|].
  apply (global_client_lifecycle [] good_env g_empty). reflexivity.
Defined.

(** Logging levels. *)
Section LevelsProps.
Variable ToUpper : string -> string.

(** X17. [InitializeLogger] sets the level [ParseLogLevel] gives for
    [REVENIUM_LOG_LEVEL]. A parsed level is always between DEBUG and ERROR,
    so error messages are always logged. Debug messages are logged only
    for DEBUG, and an unrecognised name gives INFO. *)
Theorem log_level_parsing (env : Environ) (s : string) :
  InitializeLogger_level ToUpper env = ParseLogLevel ToUpper (Getenv env "REVENIUM_LOG_LEVEL") /\
  LogLevelDebug <= ParseLogLevel ToUpper s <= LogLevelError /\
  logs_at (ParseLogLevel ToUpper s) LogLevelError = true /\
  (logs_at (ParseLogLevel ToUpper s) LogLevelDebug = true <-> ToUpper s = "DEBUG") /\
  (ToUpper s ∉ ["DEBUG"; "INFO"; "WARN"; "WARNING"; "ERROR"] ->
   ParseLogLevel ToUpper s = LogLevelInfo).
Proof.
  unfold InitializeLogger_level, ParseLogLevel, logs_at.
  split; [reflexivity|].
  cbv [LogLevelDebug LogLevelInfo LogLevelWarn LogLevelError].
  destruct (String.eqb_spec (ToUpper s) "DEBUG") as [E|E];
  [|destruct (String.eqb_spec (ToUpper s) "INFO") as [E1|E1];
  [|destruct (String.eqb_spec (ToUpper s) "WARN") as [E2|E2];
  [|destruct (String.eqb_spec (ToUpper s) "WARNING") as [E3|E3];
  [|destruct (String.eqb_spec (ToUpper s) "ERROR") as [E4|E4]]]]]; simpl;
  (repeat split; try lia; try reflexivity; try contradiction;
   try (intros H; discriminate H); try (intros _; assumption);
   try (intros H; exfalso; apply H; match goal with E : ToUpper s = _ |- _ => rewrite E end; set_solver)).
Qed.

(** X18. If [strings.ToUpper] leaves the four level names unchanged, then
    [ParseLogLevel] inverts [LogLevel.String] on the four levels, none of
    which prints as UNKNOWN. *)
Theorem ParseLogLevel_String (l : LogLevel_t) :
  ToUpper "DEBUG" = "DEBUG" -> ToUpper "INFO" = "INFO" ->
  ToUpper "WARN" = "WARN" -> ToUpper "ERROR" = "ERROR" ->
  LogLevelDebug <= l <= LogLevelError ->
  LogLevel_String l <> "UNKNOWN" /\ ParseLogLevel ToUpper (LogLevel_String l) = l.
Proof.
  intros HD HI HW HE Hl. unfold LogLevelDebug, LogLevelError in Hl.
  assert (l = 0 \/ l = 1 \/ l = 2 \/ l = 3) as [ -> | [ -> | [ -> | -> ]]] by lia;
  unfold LogLevel_String, ParseLogLevel; simpl;
  [rewrite HD | rewrite HI | rewrite HW | rewrite HE]; split; try discriminate; reflexivity.
Qed.

End LevelsProps.

Lemma ParseLogLevel_String_witness :
  ascii_ToUpper "DEBUG" = "DEBUG" /\ ascii_ToUpper "INFO" = "INFO" /\
  ascii_ToUpper "WARN" = "WARN" /\ ascii_ToUpper "ERROR" = "ERROR" /\
  LogLevelDebug <= LogLevelWarn <= LogLevelError /\
  (LogLevel_String LogLevelWarn <> "UNKNOWN" /\
   ParseLogLevel ascii_ToUpper (LogLevel_String LogLevelWarn) = LogLevelWarn).
Proof.
  assert (HD : ascii_ToUpper "DEBUG" = "DEBUG") by (vm_compute; reflexivity).
  assert (HI : ascii_ToUpper "INFO" = "INFO") by (vm_compute; reflexivity).
  assert (HW : ascii_ToUpper "WARN" = "WARN") by (vm_compute; reflexivity).
  assert (HE : ascii_ToUpper "ERROR" = "ERROR") by (vm_compute; reflexivity).
  assert (Hl : LogLevelDebug <= LogLevelWarn <= LogLevelError) by (unfold LogLevelDebug, LogLevelWarn, LogLevelError; lia).
  refine (conj HD (conj HI (conj HW (conj HE (conj Hl _))))).
  apply (ParseLogLevel_String ascii_ToUpper LogLevelWarn HD HI HW HE Hl).
Defined.

(** Version detection. *)
Lemma compute_middleware_source_version (info : option BuildInfo) :
  compute_middleware_source info = "revenium-middleware-runway-go@" +:+ GetVersion info.
Proof.
  unfold compute_middleware_source, GetVersion. f_equal.
  destruct info as [info|]; [|reflexivity].
  destruct (main_version_ok info); [reflexivity|].
  induction (bi_Deps info) as [|dep deps IH]; simpl; [reflexivity|].
  destruct (String.eqb (mod_Path dep) ModuleName); [reflexivity|exact IH].
Qed.

(** X19. Successive calls of [GetMiddlewareSource] all return the first
    computed value. That value is "revenium-middleware-runway-go@"
    followed by the version [GetVersion] reports. *)
Theorem GetMiddlewareSource_cached (info : option BuildInfo) (n : nat) (v : string) :
  middleware_source_calls info n None =
    repeat ("revenium-middleware-runway-go@" +:+ GetVersion info) n /\
  middleware_source_calls info n (Some v) = repeat v n.
Proof.
  assert (Hc : forall m w, middleware_source_calls info m (Some w) = repeat w m).
  { induction m as [|m IH]; intros w; simpl; [reflexivity|]. by rewrite IH. }
  split; [|apply Hc].
  destruct n as [|n]; simpl; [reflexivity|].
  rewrite Hc, compute_middleware_source_version. reflexivity.
Qed.

(** X20. After [WithDetails key v], [GetDetails] maps [key] to [v] and
    keeps every other entry. The type, message, cause and status code are
    unchanged. A freshly constructed error has no details. *)
Theorem WithDetails_GetDetails (key k : string) (v : value) (e : ReveniumErrorObj) (t : ErrorType) (m : string) (c : option error) :
  GetDetails (WithDetails key v e) !! k = (if String.eqb key k then Some v else GetDetails e !! k) /\
  GetStatusCode (WithDetails key v e) = GetStatusCode e /\
  ro_Type (WithDetails key v e) = ro_Type e /\ ro_Message (WithDetails key v e) = ro_Message e /\
  ro_Err (WithDetails key v e) = ro_Err e /\
  GetDetails (mk_error_obj t m c) = ∅.
Proof.
  split; [|repeat split].
  unfold GetDetails, WithDetails; simpl.
  destruct (String.eqb_spec key k) as [<-|Hne].
  - apply lookup_insert_eq.
  - by apply lookup_insert_ne.
Qed.
